(** * The ego-vehicle relay of the CARLA ROS bridge

    A shallow embedding of [carla_ros_bridge/ego_vehicle.py] (class
    [EgoVehicle]) and the properties its specification states about it.

    Conventions of the embedding.

    - Python [float] arithmetic is written against an interface [Arith]
      (and [Trig] for [numpy.sin] / [numpy.cos]).  The relay's routing and
      copying properties are proved for every implementation of the
      interface.  The numeric identities are proved for the instance on
      the real numbers [R], which leaves rounding, overflow and NaN out.
      The instance on the kernel's binary64 numbers runs the definitions
      on concrete inputs, and the last section says what the identities
      come to there.
    - The simulator is read through a per-frame snapshot ([carla.Actor]):
      a record of what the calls [get_velocity()], [get_control()],
      [get_transform()], [get_physics_control()] return in that frame.
      Every call into the simulator is taken to succeed.
    - The methods inherited from [carla_ros_bridge.vehicle.Vehicle]
      ([get_id], [get_msg_header], [get_current_ros_pose],
      [get_current_ros_accel]) are not part of the file; they are the
      fields of the interface [Vehicle].
    - A handler maps the relay's state to the new state and the list of
      effects it performs (publications and calls into the simulator), in
      program order.
    - [__init__] and [destroy] are read as the lists of calls they make
      on the node, the handles named by the attributes that hold them. *)

From Stdlib Require Import Floats.
From Stdlib Require Import Bool List String ZArith Lia.
From Stdlib Require Import DecimalString Permutation.
From Stdlib Require Import Reals Lra.
Import ListNotations.

Set Implicit Arguments.

(** ** Arithmetic of Python floats *)

Declare Scope num_scope.
Delimit Scope num_scope with num.

(** The operations the source applies to floats: literals, [+ - * /],
    unary minus, [math.sqrt] and the constant [math.pi]. *)
Class Arith (F : Type) : Type := {
  f_lit : Z -> F;
  f_add : F -> F -> F;
  f_sub : F -> F -> F;
  f_mul : F -> F -> F;
  f_div : F -> F -> F;
  f_neg : F -> F;
  f_sqrt : F -> F;
  f_pi : F
}.

(** [numpy.sin] and [numpy.cos]. *)
Class Trig (F : Type) : Type := {
  f_sin : F -> F;
  f_cos : F -> F
}.

Infix "+" := f_add : num_scope.
Infix "-" := f_sub : num_scope.
Infix "*" := f_mul : num_scope.
Infix "/" := f_div : num_scope.
Notation "- x" := (f_neg x) : num_scope.

(** ** Data of the simulator API (package [carla]) *)

Module carla.

Section Types.
Context {F : Type}.

(** [carla.Vector3D]; [carla.Location] is its subclass with the same
    attributes. *)
Record Vector3D : Type := { x : F; y : F; z : F }.

Record Rotation : Type := { pitch : F; yaw : F; roll : F }.

(** A 4x4 matrix as [get_inverse_matrix()] returns it: four rows of four. *)
Definition Row4 : Type := (F * F * F * F)%type.
Definition Matrix4 : Type := (Row4 * Row4 * Row4 * Row4)%type.

(** [carla.Transform], with the result of its method
    [get_inverse_matrix()]. *)
Record Transform : Type := {
  location : Vector3D;
  rotation : Rotation;
  get_inverse_matrix : Matrix4
}.

Record VehicleControl : Type := {
  throttle : F;
  steer : F;
  brake : F;
  hand_brake : bool;
  reverse : bool;
  manual_gear_shift : bool;
  gear : Z
}.

Record WheelPhysicsControl : Type := {
  tire_friction : F;
  damping_rate : F;
  max_steer_angle : F;
  radius : F;
  max_brake_torque : F;
  max_handbrake_torque : F;
  position : Vector3D
}.

Record VehiclePhysicsControl : Type := {
  wheels : list WheelPhysicsControl;
  max_rpm : F;
  moi : F;
  damping_rate_full_throttle : F;
  damping_rate_zero_throttle_clutch_engaged : F;
  damping_rate_zero_throttle_clutch_disengaged : F;
  use_gear_autobox : bool;
  gear_switch_time : F;
  clutch_strength : F;
  mass : F;
  drag_coefficient : F;
  center_of_mass : Vector3D
}.

(** The simulated vehicle ([self.carla_actor]) as one frame sees it. *)
Record Actor : Type := {
  id : Z;
  type_id : string;
  attributes : list (string * string);
  get_velocity : Vector3D;
  get_control : VehicleControl;
  get_transform : Transform;
  get_physics_control : VehiclePhysicsControl
}.

End Types.

Arguments Vector3D : clear implicits.
Arguments Rotation : clear implicits.
Arguments Row4 : clear implicits.
Arguments Matrix4 : clear implicits.
Arguments Transform : clear implicits.
Arguments VehicleControl : clear implicits.
Arguments WheelPhysicsControl : clear implicits.
Arguments VehiclePhysicsControl : clear implicits.
Arguments Actor : clear implicits.

End carla.

(** ** Messages of the middleware

    Each record holds the fields of the message that the relay reads or
    writes. *)

Module std_msgs.

(** [std_msgs/Bool]. *)
Record Bool : Type := { data : bool }.

(** [std_msgs/Header]: a time stamp (seconds, nanoseconds) and a frame. *)
Record Header : Type := { stamp : Z * Z; frame_id : string }.

End std_msgs.

Module geometry_msgs.

Module Vector3.
Record Vector3 (F : Type) : Type := { x : F; y : F; z : F }.
End Vector3.
Abbreviation Vector3 := Vector3.Vector3.

Module Point.
Record Point (F : Type) : Type := { x : F; y : F; z : F }.
End Point.
Abbreviation Point := Point.Point.

Module Quaternion.
Record Quaternion (F : Type) : Type := { x : F; y : F; z : F; w : F }.
End Quaternion.
Abbreviation Quaternion := Quaternion.Quaternion.

Record Pose (F : Type) : Type := {
  position : Point F;
  orientation : Quaternion F
}.

Record Accel (F : Type) : Type := {
  linear : Vector3 F;
  angular : Vector3 F
}.

Record PoseStamped (F : Type) : Type := {
  header : std_msgs.Header;
  pose : Pose F
}.

End geometry_msgs.

Module carla_msgs.

Record CarlaEgoVehicleControl (F : Type) : Type := {
  throttle : F;
  steer : F;
  brake : F;
  hand_brake : bool;
  reverse : bool;
  gear : Z;
  manual_gear_shift : bool
}.

Record CarlaEgoVehicleStatus (F : Type) : Type := {
  header : std_msgs.Header;
  velocity : F;
  acceleration : geometry_msgs.Accel F;
  orientation : geometry_msgs.Quaternion F;
  control : CarlaEgoVehicleControl F
}.

Record CarlaEgoVehicleInfoWheel (F : Type) : Type := {
  tire_friction : F;
  damping_rate : F;
  max_steer_angle : F;
  radius : F;
  max_brake_torque : F;
  max_handbrake_torque : F;
  position : geometry_msgs.Vector3 F
}.

Record CarlaEgoVehicleInfo (F : Type) : Type := {
  id : Z;
  type : string;
  rolename : option string;
  wheels : list (CarlaEgoVehicleInfoWheel F);
  max_rpm : F;
  moi : F;
  damping_rate_full_throttle : F;
  damping_rate_zero_throttle_clutch_engaged : F;
  damping_rate_zero_throttle_clutch_disengaged : F;
  use_gear_autobox : bool;
  gear_switch_time : F;
  clutch_strength : F;
  mass : F;
  drag_coefficient : F;
  center_of_mass : geometry_msgs.Vector3 F
}.

End carla_msgs.

Module localization_msgs.

Record Canbus (F : Type) : Type := {
  header : std_msgs.Header;
  steering : F;
  throttle : F;
  speed : F;
  brake : F;
  accel : F;
  checksum : Z
}.

End localization_msgs.

(** ** The base class

    What [EgoVehicle] inherits from [carla_ros_bridge.vehicle.Vehicle] and
    calls on [self]: the identifier, the header of an outgoing message, and
    the simulator's pose and acceleration converted to the middleware's
    conventions.  The two conversions read the simulated vehicle. *)
Class Vehicle (F : Type) : Type := {
  get_id : Z;
  get_msg_header : string -> F -> std_msgs.Header;
  get_current_ros_pose : carla.Actor F -> geometry_msgs.Pose F;
  get_current_ros_accel : carla.Actor F -> geometry_msgs.Accel F
}.

(** ** The relay *)

(** The attributes [__init__] sets besides the publishers and the
    subscriptions. *)
Record EgoVehicle : Type := {
  vehicle_info_published : bool;
  vehicle_control_override : bool
}.

(** What a handler does to the outside, in program order: a message on
    one of the relay's publishers, a call into the simulator, the
    callback, a log line, or the call of the base class's [update], whose
    body is not part of the file. *)
Inductive Effect (F : Type) : Type :=
| vehicle_status_publish (msg : carla_msgs.CarlaEgoVehicleStatus F)
| canbus_publish (msg : localization_msgs.Canbus F)
| ego_location_publish (msg : geometry_msgs.PoseStamped F)
| vehicle_info_publish (msg : carla_msgs.CarlaEgoVehicleInfo F)
| apply_control (control : carla.VehicleControl F)
| vehicle_control_applied_callback (uid : Z)
| logdebug (text : string)
| set_autopilot (enabled : bool)
| super_update (frame : Z) (timestamp : F).

Arguments vehicle_control_applied_callback {F} uid.
Arguments logdebug {F} text.
Arguments set_autopilot {F} enabled.

(** What the subscriptions of [__init__] and the bridge's frame tick
    deliver to the relay. *)
Inductive Inbound (F : Type) : Type :=
| vehicle_control_cmd (msg : carla_msgs.CarlaEgoVehicleControl F)
| vehicle_control_cmd_manual (msg : carla_msgs.CarlaEgoVehicleControl F)
| vehicle_control_manual_override (msg : std_msgs.Bool)
| enable_autopilot (msg : std_msgs.Bool)
| frame_tick (carla_actor : carla.Actor F) (frame : Z) (timestamp : F).

Arguments vehicle_control_manual_override {F} msg.
Arguments enable_autopilot {F} msg.

(** [dict.get]: the first binding of the key, [None] without one. *)
Fixpoint dict_get (d : list (string * string)) (key : string) : option string :=
  match d with
  | [] => None
  | (k, v) :: rest => if String.eqb k key then Some v else dict_get rest key
  end.

(** [str(bool)], as ["{}".format] prints a Python boolean. *)
Definition format_bool (b : bool) : string :=
  if b then "True"%string else "False"%string.

Section Relay.

Context {F : Type} {A : Arith F}.

Local Open Scope num_scope.

(** [__init__]: both flags start false. *)
Definition EgoVehicle_init : EgoVehicle :=
  {| vehicle_info_published := false; vehicle_control_override := false |}.

(** [math.radians]: the argument times [pi / 180]. *)
Definition radians (deg : F) : F := deg * (f_pi / f_lit 180).

(** [numpy.matmul] of a 4x4 matrix and a vector of four. *)
Definition dot4 (r v : carla.Row4 F) : F :=
  let '(a, b, c, d) := r in
  let '(p, q, s, t) := v in
  a * p + b * q + c * s + d * t.

Definition matmul (m : carla.Matrix4 F) (v : carla.Row4 F) : carla.Row4 F :=
  let '(r0, r1, r2, r3) := m in
  (dot4 r0 v, dot4 r1 v, dot4 r2 v, dot4 r3 v).

Definition get_vector_length_squared (carla_vector : carla.Vector3D F) : F :=
  carla.x carla_vector * carla.x carla_vector
  + carla.y carla_vector * carla.y carla_vector
  + carla.z carla_vector * carla.z carla_vector.

Definition get_vehicle_speed_squared (carla_vehicle : carla.Actor F) : F :=
  get_vector_length_squared (carla.get_velocity carla_vehicle).

Definition get_vehicle_speed_abs (carla_vehicle : carla.Actor F) : F :=
  let speed := f_sqrt (get_vehicle_speed_squared carla_vehicle) in
  speed.

Definition get_quaternion_from_euler {T : Trig F} (roll pitch yaw : F)
  : F * F * F * F :=
  let qx :=
    f_sin (roll / f_lit 2) * f_cos (pitch / f_lit 2) * f_cos (yaw / f_lit 2)
    - f_cos (roll / f_lit 2) * f_sin (pitch / f_lit 2) * f_sin (yaw / f_lit 2) in
  let qy :=
    f_cos (roll / f_lit 2) * f_sin (pitch / f_lit 2) * f_cos (yaw / f_lit 2)
    + f_sin (roll / f_lit 2) * f_cos (pitch / f_lit 2) * f_sin (yaw / f_lit 2) in
  let qz :=
    f_cos (roll / f_lit 2) * f_cos (pitch / f_lit 2) * f_sin (yaw / f_lit 2)
    - f_sin (roll / f_lit 2) * f_sin (pitch / f_lit 2) * f_cos (yaw / f_lit 2) in
  let qw :=
    f_cos (roll / f_lit 2) * f_cos (pitch / f_lit 2) * f_cos (yaw / f_lit 2)
    + f_sin (roll / f_lit 2) * f_sin (pitch / f_lit 2) * f_sin (yaw / f_lit 2) in
  (qx, qy, qz, qw).

(** The body of the loop over [vehicle_physics.wheels]. *)
Definition wheel_info (carla_actor : carla.Actor F)
    (wheel : carla.WheelPhysicsControl F) : carla_msgs.CarlaEgoVehicleInfoWheel F :=
  let inv_T := carla.get_inverse_matrix (carla.get_transform carla_actor) in
  let wheel_pos_in_map :=
    (carla.x (carla.position wheel) / f_lit 100,
     carla.y (carla.position wheel) / f_lit 100,
     carla.z (carla.position wheel) / f_lit 100,
     f_lit 1) in
  let '(p0, p1, p2, _) := matmul inv_T wheel_pos_in_map in
  {| carla_msgs.tire_friction := carla.tire_friction wheel;
     carla_msgs.damping_rate := carla.damping_rate wheel;
     carla_msgs.max_steer_angle := radians (carla.max_steer_angle wheel);
     carla_msgs.radius := carla.radius wheel;
     carla_msgs.max_brake_torque := carla.max_brake_torque wheel;
     carla_msgs.max_handbrake_torque := carla.max_handbrake_torque wheel;
     carla_msgs.position :=
       {| geometry_msgs.Vector3.x := p0;
          geometry_msgs.Vector3.y := - p1;
          geometry_msgs.Vector3.z := p2 |} |}.

(** The static descriptor that the guarded block of [send_vehicle_msgs]
    builds. *)
Definition vehicle_info (carla_actor : carla.Actor F)
  : carla_msgs.CarlaEgoVehicleInfo F :=
  let vehicle_physics := carla.get_physics_control carla_actor in
  {| carla_msgs.id := carla.id carla_actor;
     carla_msgs.type := carla.type_id carla_actor;
     carla_msgs.rolename := dict_get (carla.attributes carla_actor) "role_name";
     carla_msgs.wheels :=
       map (wheel_info carla_actor) (carla.wheels vehicle_physics);
     carla_msgs.max_rpm := carla.max_rpm vehicle_physics;
     carla_msgs.moi := carla.moi vehicle_physics;
     carla_msgs.damping_rate_full_throttle :=
       carla.damping_rate_full_throttle vehicle_physics;
     carla_msgs.damping_rate_zero_throttle_clutch_engaged :=
       carla.damping_rate_zero_throttle_clutch_engaged vehicle_physics;
     carla_msgs.damping_rate_zero_throttle_clutch_disengaged :=
       carla.damping_rate_zero_throttle_clutch_disengaged vehicle_physics;
     carla_msgs.use_gear_autobox := carla.use_gear_autobox vehicle_physics;
     carla_msgs.gear_switch_time := carla.gear_switch_time vehicle_physics;
     carla_msgs.clutch_strength := carla.clutch_strength vehicle_physics;
     carla_msgs.mass := carla.mass vehicle_physics;
     carla_msgs.drag_coefficient := carla.drag_coefficient vehicle_physics;
     carla_msgs.center_of_mass :=
       {| geometry_msgs.Vector3.x :=
            carla.x (carla.center_of_mass vehicle_physics);
          geometry_msgs.Vector3.y :=
            carla.y (carla.center_of_mass vehicle_physics);
          geometry_msgs.Vector3.z :=
            carla.z (carla.center_of_mass vehicle_physics) |} |}.

Context {V : Vehicle F}.

(** The status message of one frame.  [acceleration.angular] is not
    assigned and keeps the zeros of the message's constructor. *)
Definition vehicle_status_msg (carla_actor : carla.Actor F) (timestamp : F)
  : carla_msgs.CarlaEgoVehicleStatus F :=
  {| carla_msgs.header := get_msg_header "map" timestamp;
     carla_msgs.velocity := get_vehicle_speed_abs carla_actor;
     carla_msgs.acceleration :=
       {| geometry_msgs.linear :=
            geometry_msgs.linear (get_current_ros_accel carla_actor);
          geometry_msgs.angular :=
            {| geometry_msgs.Vector3.x := f_lit 0;
               geometry_msgs.Vector3.y := f_lit 0;
               geometry_msgs.Vector3.z := f_lit 0 |} |};
     carla_msgs.orientation :=
       geometry_msgs.orientation (get_current_ros_pose carla_actor);
     carla_msgs.control :=
       {| carla_msgs.throttle := carla.throttle (carla.get_control carla_actor);
          carla_msgs.steer := carla.steer (carla.get_control carla_actor);
          carla_msgs.brake := carla.brake (carla.get_control carla_actor);
          carla_msgs.hand_brake :=
            carla.hand_brake (carla.get_control carla_actor);
          carla_msgs.reverse := carla.reverse (carla.get_control carla_actor);
          carla_msgs.gear := carla.gear (carla.get_control carla_actor);
          carla_msgs.manual_gear_shift :=
            carla.manual_gear_shift (carla.get_control carla_actor) |} |}.

(** The pose message of one frame.  The locals [cy], [sy], [cp], [sp],
    [cr], [sr] of the source are computed and never read. *)
Definition ego_loc_msg (carla_actor : carla.Actor F) (timestamp : F)
  : geometry_msgs.PoseStamped F :=
  let ego_transform := carla.get_transform carla_actor in
  {| geometry_msgs.header := get_msg_header "map" timestamp;
     geometry_msgs.pose :=
       {| geometry_msgs.position :=
            {| geometry_msgs.Point.x := carla.x (carla.location ego_transform);
               geometry_msgs.Point.y := carla.y (carla.location ego_transform);
               geometry_msgs.Point.z := carla.z (carla.location ego_transform) |};
          geometry_msgs.orientation :=
            geometry_msgs.orientation (get_current_ros_pose carla_actor) |} |}.

(** The derived-telemetry message, built from the status message. *)
Definition canbus_msg (vehicle_status : carla_msgs.CarlaEgoVehicleStatus F)
    (timestamp : F) : localization_msgs.Canbus F :=
  {| localization_msgs.header := get_msg_header "map" timestamp;
     localization_msgs.steering :=
       carla_msgs.steer (carla_msgs.control vehicle_status);
     localization_msgs.throttle :=
       carla_msgs.throttle (carla_msgs.control vehicle_status);
     localization_msgs.speed := carla_msgs.velocity vehicle_status;
     localization_msgs.brake :=
       carla_msgs.brake (carla_msgs.control vehicle_status);
     localization_msgs.accel :=
       geometry_msgs.Vector3.x
         (geometry_msgs.linear (carla_msgs.acceleration vehicle_status));
     localization_msgs.checksum := 1 |}.

Definition send_vehicle_msgs (self : EgoVehicle) (carla_actor : carla.Actor F)
    (frame : Z) (timestamp : F) : EgoVehicle * list (Effect F) :=
  let vehicle_status := vehicle_status_msg carla_actor timestamp in
  let ego_loc := ego_loc_msg carla_actor timestamp in
  let every_frame :=
    [ vehicle_status_publish vehicle_status;
      canbus_publish (canbus_msg vehicle_status timestamp);
      ego_location_publish ego_loc ] in
  if negb (vehicle_info_published self) then
    ({| vehicle_info_published := true;
        vehicle_control_override := vehicle_control_override self |},
     every_frame ++ [ vehicle_info_publish (vehicle_info carla_actor) ])
  else (self, every_frame).

Definition control_command_override (self : EgoVehicle) (enable : std_msgs.Bool)
  : EgoVehicle * list (Effect F) :=
  ({| vehicle_info_published := vehicle_info_published self;
      vehicle_control_override := std_msgs.data enable |},
   []).

Definition control_command_updated (self : EgoVehicle)
    (ros_vehicle_control : carla_msgs.CarlaEgoVehicleControl F)
    (manual_override : bool) : EgoVehicle * list (Effect F) :=
  if Bool.eqb manual_override (vehicle_control_override self) then
    let vehicle_control :=
      {| carla.hand_brake := carla_msgs.hand_brake ros_vehicle_control;
         carla.brake := carla_msgs.brake ros_vehicle_control;
         carla.steer := carla_msgs.steer ros_vehicle_control;
         carla.throttle := carla_msgs.throttle ros_vehicle_control;
         carla.reverse := carla_msgs.reverse ros_vehicle_control;
         carla.manual_gear_shift :=
           carla_msgs.manual_gear_shift ros_vehicle_control;
         carla.gear := carla_msgs.gear ros_vehicle_control |} in
    (self, [ apply_control vehicle_control;
             vehicle_control_applied_callback get_id ])
  else (self, []).

Definition enable_autopilot_updated (self : EgoVehicle)
    (enable_auto_pilot : std_msgs.Bool) : EgoVehicle * list (Effect F) :=
  (self,
   [ logdebug ("Ego vehicle: Set autopilot to "
               ++ format_bool (std_msgs.data enable_auto_pilot))%string;
     set_autopilot (std_msgs.data enable_auto_pilot) ]).

(** [update]: the messages of the frame, then the base class's turn. *)
Definition update (self : EgoVehicle) (carla_actor : carla.Actor F)
    (frame : Z) (timestamp : F) : EgoVehicle * list (Effect F) :=
  let '(self1, out) := send_vehicle_msgs self carla_actor frame timestamp in
  (self1, out ++ [ super_update frame timestamp ]).

(** The wiring of [__init__] and of the bridge's frame tick: which
    handler a delivery reaches, and with which [manual_override]. *)
Definition dispatch (self : EgoVehicle) (m : Inbound F)
  : EgoVehicle * list (Effect F) :=
  match m with
  | vehicle_control_cmd data => control_command_updated self data false
  | vehicle_control_cmd_manual data => control_command_updated self data true
  | vehicle_control_manual_override enable =>
      control_command_override self enable
  | enable_autopilot enable => enable_autopilot_updated self enable
  | frame_tick carla_actor frame timestamp =>
      update self carla_actor frame timestamp
  end.

(** The relay over a sequence of deliveries, one after the other. *)
Fixpoint run (self : EgoVehicle) (ms : list (Inbound F))
  : EgoVehicle * list (Effect F) :=
  match ms with
  | [] => (self, [])
  | m :: rest =>
      let '(self1, out) := dispatch self m in
      let '(self2, out') := run self1 rest in
      (self2, out ++ out')
  end.

End Relay.

(** ** The two arithmetics *)

(** Floats read as real numbers: exact arithmetic. *)
#[export] Instance Arith_R : Arith R := {|
  f_lit := IZR;
  f_add := Rplus;
  f_sub := Rminus;
  f_mul := Rmult;
  f_div := Rdiv;
  f_neg := Ropp;
  f_sqrt := sqrt;
  f_pi := PI
|}.

#[export] Instance Trig_R : Trig R := {| f_sin := sin; f_cos := cos |}.

(** An integer literal as a binary64 number. *)
Definition float_of_Z (n : Z) : float :=
  match n with
  | Z0 => PrimFloat.of_uint63 (Uint63.of_Z 0)
  | Zpos _ => PrimFloat.of_uint63 (Uint63.of_Z n)
  | Zneg p => PrimFloat.opp (PrimFloat.of_uint63 (Uint63.of_Z (Zpos p)))
  end.

(** Floats as they are: IEEE 754 binary64, [math.pi] being the double
    nearest to pi. *)
#[export] Instance Arith_binary64 : Arith float := {|
  f_lit := float_of_Z;
  f_add := PrimFloat.add;
  f_sub := PrimFloat.sub;
  f_mul := PrimFloat.mul;
  f_div := PrimFloat.div;
  f_neg := PrimFloat.opp;
  f_sqrt := PrimFloat.sqrt;
  f_pi := 0x1.921fb54442d18p+1%float
|}.

(** ** Reading a list of effects *)

Section Traces.

Context {F : Type}.

(** The controls handed to [carla_actor.apply_control], in order. *)
Fixpoint applied_controls (es : list (Effect F)) : list (carla.VehicleControl F) :=
  match es with
  | [] => []
  | apply_control c :: rest => c :: applied_controls rest
  | _ :: rest => applied_controls rest
  end.

(** The arguments of the control-applied callback, in order. *)
Fixpoint callback_calls (es : list (Effect F)) : list Z :=
  match es with
  | [] => []
  | vehicle_control_applied_callback uid :: rest => uid :: callback_calls rest
  | _ :: rest => callback_calls rest
  end.

Fixpoint published_infos (es : list (Effect F))
  : list (carla_msgs.CarlaEgoVehicleInfo F) :=
  match es with
  | [] => []
  | vehicle_info_publish m :: rest => m :: published_infos rest
  | _ :: rest => published_infos rest
  end.

Fixpoint published_statuses (es : list (Effect F))
  : list (carla_msgs.CarlaEgoVehicleStatus F) :=
  match es with
  | [] => []
  | vehicle_status_publish m :: rest => m :: published_statuses rest
  | _ :: rest => published_statuses rest
  end.

Fixpoint published_poses (es : list (Effect F))
  : list (geometry_msgs.PoseStamped F) :=
  match es with
  | [] => []
  | ego_location_publish m :: rest => m :: published_poses rest
  | _ :: rest => published_poses rest
  end.

Fixpoint published_canbus (es : list (Effect F))
  : list (localization_msgs.Canbus F) :=
  match es with
  | [] => []
  | canbus_publish m :: rest => m :: published_canbus rest
  | _ :: rest => published_canbus rest
  end.

(** The simulated vehicle as the first frame tick of a sequence sees it. *)
Fixpoint first_frame (ms : list (Inbound F)) : option (carla.Actor F) :=
  match ms with
  | [] => None
  | frame_tick carla_actor _ _ :: _ => Some carla_actor
  | _ :: rest => first_frame rest
  end.

(** The seven fields of a control command, one by one. *)
Definition same_fields (c : carla.VehicleControl F)
    (msg : carla_msgs.CarlaEgoVehicleControl F) : Prop :=
  carla.throttle c = carla_msgs.throttle msg
  /\ carla.steer c = carla_msgs.steer msg
  /\ carla.brake c = carla_msgs.brake msg
  /\ carla.hand_brake c = carla_msgs.hand_brake msg
  /\ carla.reverse c = carla_msgs.reverse msg
  /\ carla.gear c = carla_msgs.gear msg
  /\ carla.manual_gear_shift c = carla_msgs.manual_gear_shift msg.

(** A relay that has not published the static descriptor yet. *)
Definition unpublished (override : bool) : EgoVehicle :=
  {| vehicle_info_published := false; vehicle_control_override := override |}.

(** The relay with its override flag at [b]. *)
Definition with_override (self : EgoVehicle) (b : bool) : EgoVehicle :=
  {| vehicle_info_published := vehicle_info_published self;
     vehicle_control_override := b |}.

(** The control that carries the seven fields of a command. *)
Definition control_of (msg : carla_msgs.CarlaEgoVehicleControl F)
  : carla.VehicleControl F :=
  {| carla.throttle := carla_msgs.throttle msg;
     carla.steer := carla_msgs.steer msg;
     carla.brake := carla_msgs.brake msg;
     carla.hand_brake := carla_msgs.hand_brake msg;
     carla.reverse := carla_msgs.reverse msg;
     carla.manual_gear_shift := carla_msgs.manual_gear_shift msg;
     carla.gear := carla_msgs.gear msg |}.

(** The value of the latest override-enable message of a sequence, [b]
    when it holds none. *)
Definition latest_override (b : bool) (ms : list (Inbound F)) : bool :=
  fold_left
    (fun b m =>
       match m with
       | vehicle_control_manual_override enable => std_msgs.data enable
       | _ => b
       end)
    ms b.

(** Which channel a delivery came on: [Some true] for the manual one,
    [Some false] for the primary one, [None] for anything else. *)
Definition channel_of (m : Inbound F) : option bool :=
  match m with
  | vehicle_control_cmd _ => Some false
  | vehicle_control_cmd_manual _ => Some true
  | _ => None
  end.

End Traces.

(** ** Reference values for the numeric properties *)

(** The 4x4 identity matrix. *)
Definition identity_matrix {F : Type} {A : Arith F} : carla.Matrix4 F :=
  ((f_lit 1, f_lit 0, f_lit 0, f_lit 0),
   (f_lit 0, f_lit 1, f_lit 0, f_lit 0),
   (f_lit 0, f_lit 0, f_lit 1, f_lit 0),
   (f_lit 0, f_lit 0, f_lit 0, f_lit 1)).

(** A wheel of the static descriptor in the specification's words, over
    the reals: the five physical parameters copied, the steering angle in
    radians, and the position the image of the wheel's position in metres
    under the affine map of the matrix [inv_T], its second coordinate
    negated. *)
Definition wheel_info_spec (inv_T : carla.Matrix4 R)
    (wheel : carla.WheelPhysicsControl R) : carla_msgs.CarlaEgoVehicleInfoWheel R :=
  let '((m00, m01, m02, m03), (m10, m11, m12, m13), (m20, m21, m22, m23), _) :=
    inv_T in
  let px := (carla.x (carla.position wheel) / 100)%R in
  let py := (carla.y (carla.position wheel) / 100)%R in
  let pz := (carla.z (carla.position wheel) / 100)%R in
  {| carla_msgs.tire_friction := carla.tire_friction wheel;
     carla_msgs.damping_rate := carla.damping_rate wheel;
     carla_msgs.max_steer_angle := (carla.max_steer_angle wheel * PI / 180)%R;
     carla_msgs.radius := carla.radius wheel;
     carla_msgs.max_brake_torque := carla.max_brake_torque wheel;
     carla_msgs.max_handbrake_torque := carla.max_handbrake_torque wheel;
     carla_msgs.position :=
       {| geometry_msgs.Vector3.x :=
            (m00 * px + m01 * py + m02 * pz + m03)%R;
          geometry_msgs.Vector3.y :=
            (- (m10 * px + m11 * py + m12 * pz + m13))%R;
          geometry_msgs.Vector3.z :=
            (m20 * px + m21 * py + m22 * pz + m23)%R |} |}.

(** The transpose of a 4x4 matrix. *)
Definition transpose {F : Type} (m : carla.Matrix4 F) : carla.Matrix4 F :=
  let '((a00, a01, a02, a03), (a10, a11, a12, a13),
        (a20, a21, a22, a23), (a30, a31, a32, a33)) := m in
  ((a00, a10, a20, a30), (a01, a11, a21, a31),
   (a02, a12, a22, a32), (a03, a13, a23, a33)).

(** The product of two 4x4 matrices, rows of the first by columns of the
    second. *)
Definition matrix_product {F : Type} {A : Arith F} (a b : carla.Matrix4 F)
  : carla.Matrix4 F :=
  let '(r0, r1, r2, r3) := a in
  let '(c0, c1, c2, c3) := transpose b in
  ((dot4 r0 c0, dot4 r0 c1, dot4 r0 c2, dot4 r0 c3),
   (dot4 r1 c0, dot4 r1 c1, dot4 r1 c2, dot4 r1 c3),
   (dot4 r2 c0, dot4 r2 c1, dot4 r2 c2, dot4 r2 c3),
   (dot4 r3 c0, dot4 r3 c1, dot4 r3 c2, dot4 r3 c3)).

(** The matrix of the translation by [(tx, ty, tz)]. *)
Definition translation {F : Type} {A : Arith F} (tx ty tz : F) : carla.Matrix4 F :=
  ((f_lit 1, f_lit 0, f_lit 0, tx),
   (f_lit 0, f_lit 1, f_lit 0, ty),
   (f_lit 0, f_lit 0, f_lit 1, tz),
   (f_lit 0, f_lit 0, f_lit 0, f_lit 1)).

(** ** A concrete vehicle *)

Section Sample.

Context {F : Type} {A : Arith F}.

(** A base class for the samples: identifier 7, the frame name in the
    header, a fixed orientation and acceleration. *)
Definition sample_base : Vehicle F :=
  {| get_id := 7;
     get_msg_header := fun frame_id _ =>
       {| std_msgs.stamp := (0%Z, 0%Z); std_msgs.frame_id := frame_id |};
     get_current_ros_pose := fun _ =>
       {| geometry_msgs.position :=
            {| geometry_msgs.Point.x := f_lit 0;
               geometry_msgs.Point.y := f_lit 0;
               geometry_msgs.Point.z := f_lit 0 |};
          geometry_msgs.orientation :=
            {| geometry_msgs.Quaternion.x := f_lit 0;
               geometry_msgs.Quaternion.y := f_lit 0;
               geometry_msgs.Quaternion.z := f_lit 0;
               geometry_msgs.Quaternion.w := f_lit 1 |} |};
     get_current_ros_accel := fun _ =>
       {| geometry_msgs.linear :=
            {| geometry_msgs.Vector3.x := f_lit 2;
               geometry_msgs.Vector3.y := f_lit 0;
               geometry_msgs.Vector3.z := f_lit 0 |};
          geometry_msgs.angular :=
            {| geometry_msgs.Vector3.x := f_lit 0;
               geometry_msgs.Vector3.y := f_lit 0;
               geometry_msgs.Vector3.z := f_lit 0 |} |} |}.

Definition sample_wheel (px py pz : Z) : carla.WheelPhysicsControl F :=
  {| carla.tire_friction := f_lit 3;
     carla.damping_rate := f_lit 1;
     carla.max_steer_angle := f_lit 90;
     carla.radius := f_lit 35;
     carla.max_brake_torque := f_lit 1500;
     carla.max_handbrake_torque := f_lit 3000;
     carla.position :=
       {| carla.x := f_lit px; carla.y := f_lit py; carla.z := f_lit pz |} |}.

(** A vehicle at the origin with the identity as its inverse matrix,
    moving at (3, 4, 0), with two wheels. *)
Definition sample_actor : carla.Actor F :=
  {| carla.id := 42;
     carla.type_id := "vehicle.tesla.model3";
     carla.attributes := [ ("role_name", "ego_vehicle") ]%string;
     carla.get_velocity :=
       {| carla.x := f_lit 3; carla.y := f_lit 4; carla.z := f_lit 0 |};
     carla.get_control :=
       {| carla.throttle := f_lit 1;
          carla.steer := f_lit 0;
          carla.brake := f_lit 0;
          carla.hand_brake := false;
          carla.reverse := false;
          carla.manual_gear_shift := false;
          carla.gear := 1 |};
     carla.get_transform :=
       {| carla.location :=
            {| carla.x := f_lit 0; carla.y := f_lit 0; carla.z := f_lit 0 |};
          carla.rotation :=
            {| carla.pitch := f_lit 0; carla.yaw := f_lit 0; carla.roll := f_lit 0 |};
          carla.get_inverse_matrix := identity_matrix |};
     carla.get_physics_control :=
       {| carla.wheels := [ sample_wheel 150 (-80) 35; sample_wheel (-150) 80 35 ];
          carla.max_rpm := f_lit 5000;
          carla.moi := f_lit 1;
          carla.damping_rate_full_throttle := f_lit 0;
          carla.damping_rate_zero_throttle_clutch_engaged := f_lit 2;
          carla.damping_rate_zero_throttle_clutch_disengaged := f_lit 0;
          carla.use_gear_autobox := true;
          carla.gear_switch_time := f_lit 0;
          carla.clutch_strength := f_lit 10;
          carla.mass := f_lit 1800;
          carla.drag_coefficient := f_lit 0;
          carla.center_of_mass :=
            {| carla.x := f_lit 0; carla.y := f_lit 0; carla.z := f_lit 0 |} |} |}.

(** The same vehicle 10 m along x and 20 m along y: its inverse matrix
    translates back. *)
Definition sample_actor_moved : carla.Actor F :=
  {| carla.id := carla.id sample_actor;
     carla.type_id := carla.type_id sample_actor;
     carla.attributes := carla.attributes sample_actor;
     carla.get_velocity := carla.get_velocity sample_actor;
     carla.get_control := carla.get_control sample_actor;
     carla.get_transform :=
       {| carla.location :=
            {| carla.x := f_lit 10; carla.y := f_lit 20; carla.z := f_lit 0 |};
          carla.rotation :=
            {| carla.pitch := f_lit 0; carla.yaw := f_lit 0; carla.roll := f_lit 0 |};
          carla.get_inverse_matrix :=
            translation (f_lit (-10)) (f_lit (-20)) (f_lit 0) |};
     carla.get_physics_control := carla.get_physics_control sample_actor |}.

End Sample.

(** ** Binary64 numbers by class *)

(** A zero or a finite number: neither NaN nor an infinity. *)
Definition finite64 (x : float) : bool :=
  match Prim2SF x with
  | S754_zero _ | S754_finite _ _ _ => true
  | _ => false
  end.

(** One of the two zeros. *)
Definition zero64 (x : float) : bool :=
  match Prim2SF x with
  | S754_zero _ => true
  | _ => false
  end.

(** Equal but for the sign of a zero. *)
Definition same_number (x y : float) : Prop :=
  x = y \/ (zero64 x = true /\ zero64 y = true).

(** An implementation of [Trig] to run on: the first terms of the two
    series. *)
Definition series_trig : Trig float :=
  {| f_sin := fun a => a;
     f_cos := fun a => (1 - a * a / 2)%float |}.

(** ** Construction and teardown

    [__init__] registers four publishers and four subscriptions with the
    node and keeps each handle in an attribute of [self]; [destroy] hands
    some of the attributes back.  No attribute is assigned twice, so a
    handle is named by the attribute that holds it. *)

Module qos.

(** [DurabilityPolicy], the one value the relay uses. *)
Variant DurabilityPolicy : Type := TRANSIENT_LOCAL.

(** The argument [qos_profile]: a bare depth, or a [QoSProfile]. *)
Variant qos_profile : Type :=
| depth_only (depth : Z)
| QoSProfile (depth : Z) (durability : DurabilityPolicy).

End qos.

(** The message classes handed to the node. *)
Module msg_class.

Variant msg_class : Type :=
| CarlaEgoVehicleStatus
| CarlaEgoVehicleInfo
| CarlaEgoVehicleControl
| PoseStamped
| Canbus
| Bool.

End msg_class.

(** The attributes of [self] that hold a publisher or a subscription. *)
Variant Channel : Type :=
| vehicle_status_publisher
| vehicle_info_publisher
| control_subscriber
| ego_location_publisher
| manual_control_subscriber
| canbus_publisher
| control_override_subscriber
| enable_autopilot_subscriber.

(** The callback of a subscription: the method it calls, and for the two
    lambdas the [manual_override] they pass. *)
Variant Callback : Type :=
| call_control_command_updated (manual_override : bool)
| call_control_command_override
| call_enable_autopilot_updated.

(** The calls of [__init__] and [destroy] on the node and the base
    class, in program order. *)
Variant NodeCall : Type :=
| Vehicle_init
| new_publisher (attribute : Channel) (class : msg_class.msg_class)
    (topic : string) (profile : qos.qos_profile)
| new_subscription (attribute : Channel) (class : msg_class.msg_class)
    (topic : string) (callback : Callback) (profile : qos.qos_profile)
| node_logdebug (text : string)
| destroy_subscription (attribute : Channel)
| destroy_publisher (attribute : Channel)
| Vehicle_destroy.

(** [str(int)]: decimal digits, a minus sign before a negative number. *)
Definition format_int (n : Z) : string :=
  DecimalString.NilZero.string_of_int (Z.to_int n).

(** The node calls of [__init__], for the topic prefix that the base
    class's [get_topic_prefix()] returns. *)
Definition init_calls (get_topic_prefix : string) : list NodeCall :=
  [ Vehicle_init;
    new_publisher vehicle_status_publisher msg_class.CarlaEgoVehicleStatus
      (get_topic_prefix ++ "/vehicle_status") (qos.depth_only 10);
    new_publisher vehicle_info_publisher msg_class.CarlaEgoVehicleInfo
      (get_topic_prefix ++ "/vehicle_info")
      (qos.QoSProfile 10 qos.TRANSIENT_LOCAL);
    new_subscription control_subscriber msg_class.CarlaEgoVehicleControl
      (get_topic_prefix ++ "/vehicle_control_cmd")
      (call_control_command_updated false) (qos.depth_only 10);
    new_publisher ego_location_publisher msg_class.PoseStamped
      (get_topic_prefix ++ "/vehicle_location") (qos.depth_only 10);
    new_subscription manual_control_subscriber msg_class.CarlaEgoVehicleControl
      (get_topic_prefix ++ "/vehicle_control_cmd_manual")
      (call_control_command_updated true) (qos.depth_only 10);
    new_publisher canbus_publisher msg_class.Canbus
      (get_topic_prefix ++ "/canbus") (qos.depth_only 10);
    new_subscription control_override_subscriber msg_class.Bool
      (get_topic_prefix ++ "/vehicle_control_manual_override")
      call_control_command_override (qos.QoSProfile 1 qos.TRANSIENT_LOCAL);
    new_subscription enable_autopilot_subscriber msg_class.Bool
      (get_topic_prefix ++ "/enable_autopilot")
      call_enable_autopilot_updated (qos.depth_only 10) ]%string.

(** The node calls of [destroy]. *)
Definition destroy {F : Type} {V : Vehicle F} : list NodeCall :=
  [ node_logdebug
      ("Destroy Vehicle(id=" ++ format_int get_id ++ ")")%string;
    destroy_subscription control_subscriber;
    destroy_subscription enable_autopilot_subscriber;
    destroy_subscription control_override_subscriber;
    destroy_subscription manual_control_subscriber;
    destroy_publisher vehicle_status_publisher;
    destroy_publisher vehicle_info_publisher;
    Vehicle_destroy ].

(** The topics registered, in order. *)
Fixpoint registered_topics (calls : list NodeCall) : list string :=
  match calls with
  | [] => []
  | new_publisher _ _ topic _ :: rest => topic :: registered_topics rest
  | new_subscription _ _ topic _ _ :: rest => topic :: registered_topics rest
  | _ :: rest => registered_topics rest
  end.

Definition channel_eqb (a b : Channel) : bool :=
  match a, b with
  | vehicle_status_publisher, vehicle_status_publisher
  | vehicle_info_publisher, vehicle_info_publisher
  | control_subscriber, control_subscriber
  | ego_location_publisher, ego_location_publisher
  | manual_control_subscriber, manual_control_subscriber
  | canbus_publisher, canbus_publisher
  | control_override_subscriber, control_override_subscriber
  | enable_autopilot_subscriber, enable_autopilot_subscriber => true
  | _, _ => false
  end.

(** What a handle is: the kind of registration that made it and the
    attribute that holds it. *)
Variant Kind : Type := publisher | subscription.

Definition kind_eqb (a b : Kind) : bool :=
  match a, b with
  | publisher, publisher | subscription, subscription => true
  | _, _ => false
  end.

Definition handle_eqb (a b : Kind * Channel) : bool :=
  kind_eqb (fst a) (fst b) && channel_eqb (snd a) (snd b).

(** The handles that are open after a call: a registration adds one, a
    destruction by the method of its kind removes it. *)
Definition open_handles_step (open : list (Kind * Channel)) (call : NodeCall)
  : list (Kind * Channel) :=
  match call with
  | new_publisher attribute _ _ _ => open ++ [ (publisher, attribute) ]
  | new_subscription attribute _ _ _ _ => open ++ [ (subscription, attribute) ]
  | destroy_publisher attribute =>
      filter (fun h => negb (handle_eqb h (publisher, attribute))) open
  | destroy_subscription attribute =>
      filter (fun h => negb (handle_eqb h (subscription, attribute))) open
  | _ => open
  end.

(** The handles open after a sequence of calls, in order of
    registration. *)
Definition open_handles (calls : list NodeCall) : list (Kind * Channel) :=
  fold_left open_handles_step calls [].

(** The destructions that find no open handle of their kind in the
    attribute: nothing registered there, or destroyed before. *)
Fixpoint stray_destructions (open : list (Kind * Channel))
    (calls : list NodeCall) : list (Kind * Channel) :=
  match calls with
  | [] => []
  | call :: rest =>
      let stray :=
        match call with
        | destroy_publisher attribute =>
            if existsb (handle_eqb (publisher, attribute)) open then []
            else [ (publisher, attribute) ]
        | destroy_subscription attribute =>
            if existsb (handle_eqb (subscription, attribute)) open then []
            else [ (subscription, attribute) ]
        | _ => []
        end in
      stray ++ stray_destructions (open_handles_step open call) rest
  end.

(** [std_msgs/ColorRGBA]. *)
Module ColorRGBA.
Record ColorRGBA (F : Type) : Type := { r : F; g : F; b : F; a : F }.
End ColorRGBA.

(** [get_marker_color]: [a] is not assigned and keeps the zero of the
    message's constructor. *)
Definition get_marker_color {F : Type} {A : Arith F} : ColorRGBA.ColorRGBA F :=
  {| ColorRGBA.r := f_lit 0;
     ColorRGBA.g := f_lit 255;
     ColorRGBA.b := f_lit 0;
     ColorRGBA.a := f_lit 0 |}.

(** ** Reading deliveries and effects, continued *)

Section MoreTraces.

Context {F : Type}.

(** The arguments of [carla_actor.set_autopilot], in order. *)
Fixpoint autopilot_calls (es : list (Effect F)) : list bool :=
  match es with
  | [] => []
  | set_autopilot enabled :: rest => enabled :: autopilot_calls rest
  | _ :: rest => autopilot_calls rest
  end.

(** The calls of the base class's [update], in order. *)
Fixpoint super_updates (es : list (Effect F)) : list (Z * F) :=
  match es with
  | [] => []
  | super_update frame timestamp :: rest =>
      (frame, timestamp) :: super_updates rest
  | _ :: rest => super_updates rest
  end.

(** The values of the autopilot messages of a sequence, in order. *)
Fixpoint autopilot_requests (ms : list (Inbound F)) : list bool :=
  match ms with
  | [] => []
  | enable_autopilot enable :: rest =>
      std_msgs.data enable :: autopilot_requests rest
  | _ :: rest => autopilot_requests rest
  end.

(** The frame ticks of a sequence, in order. *)
Fixpoint frame_ticks (ms : list (Inbound F)) : list (carla.Actor F * Z * F) :=
  match ms with
  | [] => []
  | frame_tick carla_actor frame timestamp :: rest =>
      (carla_actor, frame, timestamp) :: frame_ticks rest
  | _ :: rest => frame_ticks rest
  end.

(** The commands of a sequence that arrive on the channel the override
    flag selects at their arrival, the flag starting at [override] and
    following the override-enable messages of the sequence. *)
Fixpoint selected_commands (override : bool) (ms : list (Inbound F))
  : list (carla_msgs.CarlaEgoVehicleControl F) :=
  match ms with
  | [] => []
  | vehicle_control_cmd msg :: rest =>
      if override then selected_commands override rest
      else msg :: selected_commands override rest
  | vehicle_control_cmd_manual msg :: rest =>
      if override then msg :: selected_commands override rest
      else selected_commands override rest
  | vehicle_control_manual_override enable :: rest =>
      selected_commands (std_msgs.data enable) rest
  | _ :: rest => selected_commands override rest
  end.

(** A delivery that is a control command or an autopilot message. *)
Definition is_command (m : Inbound F) : bool :=
  match m with
  | vehicle_control_cmd _ | vehicle_control_cmd_manual _
  | enable_autopilot _ => true
  | _ => false
  end.

End MoreTraces.

(** The product of two quaternions written [(x, y, z, w)], over the
    reals. *)
Definition quaternion_product (p q : R * R * R * R) : R * R * R * R :=
  let '(x1, y1, z1, w1) := p in
  let '(x2, y2, z2, w2) := q in
  (w1 * x2 + x1 * w2 + y1 * z2 - z1 * y2,
   w1 * y2 - x1 * z2 + y1 * w2 + z1 * x2,
   w1 * z2 + x1 * y2 - y1 * x2 + z1 * w2,
   w1 * w2 - x1 * x2 - y1 * y2 - z1 * z2)%R.

(** The vehicle [carla_actor] with its velocity scaled by [k]. *)
Definition with_velocity_scaled (k : R) (carla_actor : carla.Actor R)
  : carla.Actor R :=
  {| carla.id := carla.id carla_actor;
     carla.type_id := carla.type_id carla_actor;
     carla.attributes := carla.attributes carla_actor;
     carla.get_velocity :=
       {| carla.x := (k * carla.x (carla.get_velocity carla_actor))%R;
          carla.y := (k * carla.y (carla.get_velocity carla_actor))%R;
          carla.z := (k * carla.z (carla.get_velocity carla_actor))%R |};
     carla.get_control := carla.get_control carla_actor;
     carla.get_transform := carla.get_transform carla_actor;
     carla.get_physics_control := carla.get_physics_control carla_actor |}.

(** A binary64 number that is not below zero: a zero of either sign, a
    positive number, plus infinity, or NaN. *)
Definition not_negative (x : spec_float) : bool :=
  match x with
  | S754_zero _ | S754_nan => true
  | S754_infinity s | S754_finite s _ _ => negb s
  end.

(** Equality of tuples, component by component. *)
Ltac tuple_eq :=
  repeat match goal with
         | |- (_, _) = (_, _) => apply f_equal2
         end.

(** ** One handler at a time *)

Section Handlers.

Context {F : Type} {A : Arith F} {V : Vehicle F}.

Lemma control_command_updated_effects (self : EgoVehicle)
    (msg : carla_msgs.CarlaEgoVehicleControl F) (manual_override : bool) :
  control_command_updated self msg manual_override
  = (self,
     if Bool.eqb manual_override (vehicle_control_override self)
     then [ apply_control (control_of msg);
            vehicle_control_applied_callback get_id ]
     else []).
Proof.
  unfold control_command_updated.
  destruct (Bool.eqb manual_override (vehicle_control_override self));
    reflexivity.
Qed.

Lemma control_of_same_fields (msg : carla_msgs.CarlaEgoVehicleControl F) :
  same_fields (control_of msg) msg.
Proof. repeat split. Qed.

Lemma send_vehicle_msgs_effects (self : EgoVehicle)
    (carla_actor : carla.Actor F) (frame : Z) (timestamp : F) :
  snd (send_vehicle_msgs self carla_actor frame timestamp)
  = [ vehicle_status_publish (vehicle_status_msg carla_actor timestamp);
      canbus_publish
        (canbus_msg (vehicle_status_msg carla_actor timestamp) timestamp);
      ego_location_publish (ego_loc_msg carla_actor timestamp) ]
    ++ (if vehicle_info_published self then []
        else [ vehicle_info_publish (vehicle_info carla_actor) ]).
Proof.
  unfold send_vehicle_msgs.
  destruct (vehicle_info_published self); reflexivity.
Qed.

Lemma send_vehicle_msgs_state (self : EgoVehicle)
    (carla_actor : carla.Actor F) (frame : Z) (timestamp : F) :
  fst (send_vehicle_msgs self carla_actor frame timestamp)
  = {| vehicle_info_published := true;
       vehicle_control_override := vehicle_control_override self |}.
Proof.
  unfold send_vehicle_msgs.
  destruct self as [[|] override]; reflexivity.
Qed.

Lemma update_eq (self : EgoVehicle) (carla_actor : carla.Actor F)
    (frame : Z) (timestamp : F) :
  update self carla_actor frame timestamp
  = (fst (send_vehicle_msgs self carla_actor frame timestamp),
     snd (send_vehicle_msgs self carla_actor frame timestamp)
     ++ [ super_update frame timestamp ]).
Proof.
  unfold update.
  destruct (send_vehicle_msgs self carla_actor frame timestamp); reflexivity.
Qed.

(** The state after one delivery. *)
Lemma dispatch_state (self : EgoVehicle) (m : Inbound F) :
  fst (dispatch self m)
  = match m with
    | vehicle_control_manual_override enable =>
        with_override self (std_msgs.data enable)
    | frame_tick _ _ _ =>
        {| vehicle_info_published := true;
           vehicle_control_override := vehicle_control_override self |}
    | _ => self
    end.
Proof.
  destruct m as [msg | msg | enable | enable | actor frame timestamp]; simpl.
  - rewrite control_command_updated_effects; reflexivity.
  - rewrite control_command_updated_effects; reflexivity.
  - reflexivity.
  - reflexivity.
  - rewrite update_eq; apply send_vehicle_msgs_state.
Qed.

(** The effects of one delivery. *)
Lemma dispatch_effects (self : EgoVehicle) (m : Inbound F) :
  snd (dispatch self m)
  = match m with
    | vehicle_control_cmd msg =>
        if Bool.eqb false (vehicle_control_override self)
        then [ apply_control (control_of msg);
               vehicle_control_applied_callback get_id ]
        else []
    | vehicle_control_cmd_manual msg =>
        if Bool.eqb true (vehicle_control_override self)
        then [ apply_control (control_of msg);
               vehicle_control_applied_callback get_id ]
        else []
    | vehicle_control_manual_override _ => []
    | enable_autopilot enable =>
        [ logdebug ("Ego vehicle: Set autopilot to "
                    ++ format_bool (std_msgs.data enable))%string;
          set_autopilot (std_msgs.data enable) ]
    | frame_tick carla_actor frame timestamp =>
        snd (send_vehicle_msgs self carla_actor frame timestamp)
        ++ [ super_update frame timestamp ]
    end.
Proof.
  destruct m as [msg | msg | enable | enable | actor frame timestamp]; simpl.
  - rewrite control_command_updated_effects; reflexivity.
  - rewrite control_command_updated_effects; reflexivity.
  - reflexivity.
  - reflexivity.
  - rewrite update_eq; reflexivity.
Qed.

Lemma run_cons (self : EgoVehicle) (m : Inbound F) (ms : list (Inbound F)) :
  run self (m :: ms)
  = (fst (run (fst (dispatch self m)) ms),
     snd (dispatch self m) ++ snd (run (fst (dispatch self m)) ms)).
Proof.
  simpl.
  destruct (dispatch self m) as [self1 out]; simpl.
  destruct (run self1 ms) as [self2 out']; reflexivity.
Qed.

Lemma applied_controls_app (es es' : list (Effect F)) :
  applied_controls (es ++ es') = applied_controls es ++ applied_controls es'.
Proof.
  induction es as [| e es IH]; [ reflexivity | ].
  destruct e; simpl; rewrite IH; reflexivity.
Qed.

Lemma callback_calls_app (es es' : list (Effect F)) :
  callback_calls (es ++ es') = callback_calls es ++ callback_calls es'.
Proof.
  induction es as [| e es IH]; [ reflexivity | ].
  destruct e; simpl; rewrite IH; reflexivity.
Qed.

Lemma published_infos_app (es es' : list (Effect F)) :
  published_infos (es ++ es') = published_infos es ++ published_infos es'.
Proof.
  induction es as [| e es IH]; [ reflexivity | ].
  destruct e; simpl; rewrite IH; reflexivity.
Qed.

Lemma published_canbus_app (es es' : list (Effect F)) :
  published_canbus (es ++ es') = published_canbus es ++ published_canbus es'.
Proof.
  induction es as [| e es IH]; [ reflexivity | ].
  destruct e; simpl; rewrite IH; reflexivity.
Qed.

End Handlers.

Create Rewrite HintDb effects.

#[export] Hint Rewrite @applied_controls_app @callback_calls_app
  @published_infos_app @published_canbus_app @map_app : effects.

(** ** Routing of control commands *)

Section Routing.

Context {F : Type} {A : Arith F} {V : Vehicle F}.

(** C1.  With the override flag false, a command on the manual channel
    reaches the simulator not at all and a command on the primary channel
    reaches it once, as a control whose seven fields are the command's;
    with the flag true it is the other way round.  Neither changes the
    relay's state. *)
Theorem control_command_routing (self : EgoVehicle)
    (msg : carla_msgs.CarlaEgoVehicleControl F) :
  let off := with_override self false in
  let on := with_override self true in
  (dispatch off (vehicle_control_cmd_manual msg) = (off, [])
   /\ exists c,
        dispatch off (vehicle_control_cmd msg)
        = (off, [ apply_control c; vehicle_control_applied_callback get_id ])
        /\ same_fields c msg)
  /\ (dispatch on (vehicle_control_cmd msg) = (on, [])
      /\ exists c,
           dispatch on (vehicle_control_cmd_manual msg)
           = (on, [ apply_control c; vehicle_control_applied_callback get_id ])
           /\ same_fields c msg).
Proof.
  intros off on.
  split; split.
  - exact (control_command_updated_effects off msg true).
  - exists (control_of msg).
    split; [ | apply control_of_same_fields ].
    exact (control_command_updated_effects off msg false).
  - exact (control_command_updated_effects on msg false).
  - exists (control_of msg).
    split; [ | apply control_of_same_fields ].
    exact (control_command_updated_effects on msg true).
Qed.

End Routing.

(** ** The two flags over the relay's lifetime *)

Section Lifetime.

Context {F : Type} {A : Arith F} {V : Vehicle F}.

Lemma published_infos_dispatch (self : EgoVehicle) (m : Inbound F) :
  published_infos (snd (dispatch self m))
  = match m with
    | frame_tick carla_actor _ _ =>
        if vehicle_info_published self then [] else [ vehicle_info carla_actor ]
    | _ => []
    end.
Proof.
  rewrite dispatch_effects.
  destruct m as [msg | msg | enable | enable | actor frame timestamp];
    try reflexivity.
  - destruct (Bool.eqb false (vehicle_control_override self)); reflexivity.
  - destruct (Bool.eqb true (vehicle_control_override self)); reflexivity.
  - rewrite send_vehicle_msgs_effects.
    destruct (vehicle_info_published self); reflexivity.
Qed.

Lemma published_infos_run (ms : list (Inbound F)) : forall self,
  published_infos (snd (run self ms))
  = if vehicle_info_published self then []
    else match first_frame ms with
         | Some carla_actor => [ vehicle_info carla_actor ]
         | None => []
         end.
Proof.
  induction ms as [| m ms IH]; intros self.
  - simpl. destruct (vehicle_info_published self); reflexivity.
  - rewrite run_cons. cbn [snd].
    autorewrite with effects.
    rewrite IH, published_infos_dispatch, dispatch_state.
    destruct m; simpl; destruct (vehicle_info_published self); reflexivity.
Qed.

Lemma vehicle_info_published_run (ms : list (Inbound F)) : forall self,
  vehicle_info_published (fst (run self ms))
  = match first_frame ms with
    | Some _ => true
    | None => vehicle_info_published self
    end.
Proof.
  induction ms as [| m ms IH]; intros self; [ reflexivity | ].
  rewrite run_cons. cbn [fst].
  rewrite IH, dispatch_state.
  destruct m; simpl; try reflexivity.
  destruct (first_frame ms); reflexivity.
Qed.

Lemma vehicle_control_override_run (ms : list (Inbound F)) : forall self,
  vehicle_control_override (fst (run self ms))
  = latest_override (vehicle_control_override self) ms.
Proof.
  induction ms as [| m ms IH]; intros self; [ reflexivity | ].
  rewrite run_cons. cbn [fst].
  rewrite IH, dispatch_state.
  destruct m; reflexivity.
Qed.

(** One call of the callback per control, with the vehicle's identifier. *)
Lemma callback_calls_dispatch (self : EgoVehicle) (m : Inbound F) :
  callback_calls (snd (dispatch self m))
  = map (fun _ => get_id) (applied_controls (snd (dispatch self m))).
Proof.
  rewrite dispatch_effects.
  destruct m as [msg | msg | enable | enable | actor frame timestamp];
    try reflexivity.
  - destruct (Bool.eqb false (vehicle_control_override self)); reflexivity.
  - destruct (Bool.eqb true (vehicle_control_override self)); reflexivity.
  - rewrite send_vehicle_msgs_effects.
    destruct (vehicle_info_published self); reflexivity.
Qed.

Lemma callback_calls_run (ms : list (Inbound F)) : forall self,
  callback_calls (snd (run self ms))
  = map (fun _ => get_id) (applied_controls (snd (run self ms))).
Proof.
  induction ms as [| m ms IH]; intros self; [ reflexivity | ].
  rewrite run_cons. cbn [snd].
  autorewrite with effects.
  rewrite IH, callback_calls_dispatch.
  reflexivity.
Qed.

(** C2.  The published flag is false after construction.  Over any
    sequence of deliveries to a new relay, the static descriptor is
    published once when the sequence holds a frame tick (by the first
    tick, from that frame's vehicle) and not at all otherwise; the first
    call of [send_vehicle_msgs] publishes it and sets the flag, no
    delivery after it publishes it again, and the flag stays true. *)
Theorem vehicle_info_published_once (ms : list (Inbound F))
    (carla_actor : carla.Actor F) (frame : Z) (timestamp : F) :
  vehicle_info_published EgoVehicle_init = false
  /\ published_infos (snd (run EgoVehicle_init ms))
     = match first_frame ms with
       | Some first => [ vehicle_info first ]
       | None => []
       end
  /\ (let first_call :=
        send_vehicle_msgs EgoVehicle_init carla_actor frame timestamp in
      published_infos (snd first_call) = [ vehicle_info carla_actor ]
      /\ vehicle_info_published (fst first_call) = true
      /\ published_infos (snd (run (fst first_call) ms)) = []
      /\ vehicle_info_published (fst (run (fst first_call) ms)) = true).
Proof.
  split; [ reflexivity | ].
  split; [ exact (published_infos_run ms EgoVehicle_init) | ].
  cbv zeta.
  split; [ reflexivity | ].
  split; [ reflexivity | ].
  split.
  - rewrite published_infos_run. reflexivity.
  - rewrite vehicle_info_published_run.
    destruct (first_frame ms); reflexivity.
Qed.

(** C3.  Over any sequence of deliveries the callback is called once per
    control handed to the simulator, each time with the vehicle's
    identifier; a command whose channel matches the override flag gives
    one control and one call, and a command whose channel does not match
    gives neither. *)
Theorem control_applied_callback_once (self : EgoVehicle)
    (ms : list (Inbound F)) (msg : carla_msgs.CarlaEgoVehicleControl F)
    (manual_override : bool) :
  callback_calls (snd (run self ms))
  = map (fun _ => get_id) (applied_controls (snd (run self ms)))
  /\ (let out := snd (control_command_updated self msg manual_override) in
      applied_controls out
      = (if Bool.eqb manual_override (vehicle_control_override self)
         then [ control_of msg ] else [])
      /\ callback_calls out
         = (if Bool.eqb manual_override (vehicle_control_override self)
            then [ get_id ] else [])).
Proof.
  split; [ apply callback_calls_run | ].
  cbv zeta.
  rewrite control_command_updated_effects.
  destruct (Bool.eqb manual_override (vehicle_control_override self));
    split; reflexivity.
Qed.

(** C4.  A delivery changes the override flag only when it is an
    override-enable message, and then to the value it carries; after any
    sequence of deliveries the flag holds the value of the latest such
    message, and a command that arrives next is forwarded exactly when its
    channel equals that value.  Setting the flag to false, true and false
    again routes the commands in between accordingly: of a primary and a
    manual command sent after each setting, the primary one, then the
    manual one, then the primary one reaches the simulator. *)
Theorem override_takes_effect_at_once (self : EgoVehicle)
    (ms : list (Inbound F)) (m : Inbound F)
    (msg manual_msg : carla_msgs.CarlaEgoVehicleControl F)
    (manual_override : bool) :
  vehicle_control_override (fst (dispatch self m))
  = match m with
    | vehicle_control_manual_override enable => std_msgs.data enable
    | _ => vehicle_control_override self
    end
  /\ vehicle_control_override (fst (run self ms))
     = latest_override (vehicle_control_override self) ms
  /\ snd (control_command_updated (fst (run self ms)) msg manual_override)
     = (if Bool.eqb manual_override
             (latest_override (vehicle_control_override self) ms)
        then [ apply_control (control_of msg);
               vehicle_control_applied_callback get_id ]
        else [])
  /\ (let set b := vehicle_control_manual_override {| std_msgs.data := b |} in
      let both :=
        [ vehicle_control_cmd msg; vehicle_control_cmd_manual manual_msg ] in
      snd (run self (set false :: both ++ set true :: both ++ set false :: both))
      = [ apply_control (control_of msg);
          vehicle_control_applied_callback get_id;
          apply_control (control_of manual_msg);
          vehicle_control_applied_callback get_id;
          apply_control (control_of msg);
          vehicle_control_applied_callback get_id ]).
Proof.
  split; [ rewrite dispatch_state; destruct m; reflexivity | ].
  split; [ apply vehicle_control_override_run | ].
  split.
  - rewrite control_command_updated_effects, vehicle_control_override_run.
    reflexivity.
  - reflexivity.
Qed.

End Lifetime.

(** ** The messages of one frame *)

Section FrameMessages.

Context {F : Type} {A : Arith F} {V : Vehicle F}.

Lemma published_canbus_dispatch (self : EgoVehicle) (m : Inbound F) :
  Forall (fun c => localization_msgs.checksum c = 1%Z)
    (published_canbus (snd (dispatch self m))).
Proof.
  rewrite dispatch_effects.
  destruct m as [msg | msg | enable | enable | actor frame timestamp].
  - destruct (Bool.eqb false (vehicle_control_override self)); constructor.
  - destruct (Bool.eqb true (vehicle_control_override self)); constructor.
  - constructor.
  - constructor.
  - rewrite send_vehicle_msgs_effects.
    destruct (vehicle_info_published self); simpl; repeat constructor.
Qed.

(** C8.  Each frame publishes one derived-telemetry message and its
    checksum is 1, whatever the relay's state and the vehicle's; so is the
    checksum of every such message over any sequence of deliveries. *)
Theorem canbus_checksum_is_one (self : EgoVehicle)
    (carla_actor : carla.Actor F) (frame : Z) (timestamp : F)
    (ms : list (Inbound F)) :
  map (@localization_msgs.checksum F)
    (published_canbus (snd (send_vehicle_msgs self carla_actor frame timestamp)))
  = [ 1%Z ]
  /\ Forall (fun c => localization_msgs.checksum c = 1%Z)
       (published_canbus (snd (run self ms))).
Proof.
  split.
  - rewrite send_vehicle_msgs_effects.
    destruct (vehicle_info_published self); reflexivity.
  - revert self.
    induction ms as [| m ms IH]; intros self; [ constructor | ].
    rewrite run_cons. cbn [snd].
    autorewrite with effects.
    apply Forall_app; split; [ apply published_canbus_dispatch | apply IH ].
Qed.

(** C10.  Each frame publishes one pose message: its position is the
    location of the simulator's transform, coordinate by coordinate, and
    its orientation is the orientation of [get_current_ros_pose], the
    value the status message of the frame carries as well.  This holds for
    every base class, that is whatever [get_current_ros_pose] computes;
    [send_vehicle_msgs] is defined without [Trig], hence without
    [get_quaternion_from_euler]. *)
Theorem ego_location_copies_transform (self : EgoVehicle)
    (carla_actor : carla.Actor F) (frame : Z) (timestamp : F) :
  let out := snd (send_vehicle_msgs self carla_actor frame timestamp) in
  let ego_transform := carla.get_transform carla_actor in
  exists vehicle_status ego_loc,
    published_statuses out = [ vehicle_status ]
    /\ published_poses out = [ ego_loc ]
    /\ geometry_msgs.position (geometry_msgs.pose ego_loc)
       = {| geometry_msgs.Point.x := carla.x (carla.location ego_transform);
            geometry_msgs.Point.y := carla.y (carla.location ego_transform);
            geometry_msgs.Point.z := carla.z (carla.location ego_transform) |}
    /\ geometry_msgs.orientation (geometry_msgs.pose ego_loc)
       = geometry_msgs.orientation (get_current_ros_pose carla_actor)
    /\ geometry_msgs.orientation (geometry_msgs.pose ego_loc)
       = carla_msgs.orientation vehicle_status.
Proof.
  cbv zeta.
  rewrite send_vehicle_msgs_effects.
  exists (vehicle_status_msg carla_actor timestamp),
         (ego_loc_msg carla_actor timestamp).
  destruct (vehicle_info_published self); repeat split; reflexivity.
Qed.

End FrameMessages.

(** ** Numeric identities, over the reals *)

Section OverTheReals.

Local Open Scope R_scope.

Context {V : Vehicle R}.

(** C5.  With roll and pitch zero the conversion gives, for every yaw,
    the quaternion [(0, 0, sin (yaw / 2), cos (yaw / 2))]. *)
Theorem quaternion_of_yaw_only (yaw : R) :
  get_quaternion_from_euler 0 0 yaw = (0, 0, sin (yaw / 2), cos (yaw / 2)).
Proof.
  unfold get_quaternion_from_euler; simpl.
  replace (0 / 2) with 0 by lra.
  rewrite sin_0, cos_0.
  tuple_eq; ring.
Qed.

Lemma wheel_info_meets_spec (carla_actor : carla.Actor R)
    (wheel : carla.WheelPhysicsControl R) :
  wheel_info carla_actor wheel
  = wheel_info_spec
      (carla.get_inverse_matrix (carla.get_transform carla_actor)) wheel.
Proof.
  unfold wheel_info, wheel_info_spec, radians.
  destruct (carla.get_inverse_matrix (carla.get_transform carla_actor))
    as [[[[[[m00 m01] m02] m03] [[[m10 m11] m12] m13]]
         [[[m20 m21] m22] m23]] [[[m30 m31] m32] m33]].
  simpl.
  f_equal; [ field | f_equal; ring ].
Qed.

(** C7.  The descriptor, which a relay that has not published it sends
    with the frame, holds one entry per wheel of the simulator's physics
    control, in order: tire friction, damping rate, radius and the two
    brake torques copied, the maximal steering angle times pi / 180, and
    as position the wheel's position divided by 100 and mapped by the
    matrix [get_inverse_matrix()] of the vehicle's transform, the second
    coordinate negated afterwards. *)
Theorem wheel_info_conversion (override : bool) (carla_actor : carla.Actor R)
    (frame : Z) (timestamp : R) :
  exists info,
    published_infos
      (snd (send_vehicle_msgs (unpublished override) carla_actor frame timestamp))
    = [ info ]
    /\ carla_msgs.wheels info
       = map (wheel_info_spec
                (carla.get_inverse_matrix (carla.get_transform carla_actor)))
           (carla.wheels (carla.get_physics_control carla_actor)).
Proof.
  exists (vehicle_info carla_actor).
  split; [ reflexivity | ].
  unfold vehicle_info; simpl.
  apply map_ext; intros wheel.
  apply wheel_info_meets_spec.
Qed.

(** C6.  When the inverse matrix of the vehicle's transform is the
    identity, the descriptor gives a wheel that the simulator reports at
    [(x, y, z)] centimetres the position [(x / 100, - (y / 100), z / 100)]. *)
Theorem wheel_position_under_identity (override : bool)
    (carla_actor : carla.Actor R) (frame : Z) (timestamp : R) :
  carla.get_inverse_matrix (carla.get_transform carla_actor) = identity_matrix ->
  exists info,
    published_infos
      (snd (send_vehicle_msgs (unpublished override) carla_actor frame timestamp))
    = [ info ]
    /\ map (@carla_msgs.position R) (carla_msgs.wheels info)
       = map (fun wheel =>
                {| geometry_msgs.Vector3.x := carla.x (carla.position wheel) / 100;
                   geometry_msgs.Vector3.y :=
                     - (carla.y (carla.position wheel) / 100);
                   geometry_msgs.Vector3.z :=
                     carla.z (carla.position wheel) / 100 |})
           (carla.wheels (carla.get_physics_control carla_actor)).
Proof.
  intros Hidentity.
  exists (vehicle_info carla_actor).
  split; [ reflexivity | ].
  unfold vehicle_info; simpl.
  rewrite map_map.
  apply map_ext; intros wheel.
  rewrite wheel_info_meets_spec, Hidentity.
  unfold wheel_info_spec, identity_matrix; simpl.
  f_equal; ring.
Qed.

(** C9.  The velocity of the status message of a frame is the square
    root of the sum of the squares of the three coordinates of the
    vehicle's velocity, and it is not negative. *)
Theorem status_velocity_is_norm (self : EgoVehicle)
    (carla_actor : carla.Actor R) (frame : Z) (timestamp : R) :
  let v := carla.get_velocity carla_actor in
  exists vehicle_status,
    published_statuses
      (snd (send_vehicle_msgs self carla_actor frame timestamp))
    = [ vehicle_status ]
    /\ carla_msgs.velocity vehicle_status
       = sqrt (carla.x v * carla.x v + carla.y v * carla.y v
               + carla.z v * carla.z v)
    /\ 0 <= carla_msgs.velocity vehicle_status.
Proof.
  cbv zeta.
  exists (vehicle_status_msg carla_actor timestamp).
  rewrite send_vehicle_msgs_effects.
  split; [ destruct (vehicle_info_published self); reflexivity | ].
  split; [ reflexivity | ].
  apply sqrt_pos.
Qed.

End OverTheReals.

(** The identity case on the sample vehicle: wheels at (150, -80, 35) and
    (-150, 80, 35) centimetres. *)
Lemma wheel_position_under_identity_sample :
  carla.get_inverse_matrix (carla.get_transform (sample_actor (F := R)))
  = identity_matrix
  /\ exists info,
       published_infos
         (snd (send_vehicle_msgs (V := sample_base) (unpublished false)
                 sample_actor 1 0%R))
       = [ info ]
       /\ map (@carla_msgs.position R) (carla_msgs.wheels info)
          = [ {| geometry_msgs.Vector3.x := (150 / 100)%R;
                 geometry_msgs.Vector3.y := (- (-80 / 100))%R;
                 geometry_msgs.Vector3.z := (35 / 100)%R |};
              {| geometry_msgs.Vector3.x := (-150 / 100)%R;
                 geometry_msgs.Vector3.y := (- (80 / 100))%R;
                 geometry_msgs.Vector3.z := (35 / 100)%R |} ].
Proof.
  split; [ reflexivity | ].
  exact (wheel_position_under_identity (V := sample_base) false sample_actor
           1 0%R eq_refl).
Defined.

(** ** The vehicle's frame *)

Section VehicleFrame.

Local Open Scope R_scope.

Lemma matmul_matrix_product (a b : carla.Matrix4 R) (v : carla.Row4 R) :
  matmul a (matmul b v) = matmul (matrix_product a b) v.
Proof.
  destruct a as [[[[[[a00 a01] a02] a03] [[[a10 a11] a12] a13]]
                  [[[a20 a21] a22] a23]] [[[a30 a31] a32] a33]].
  destruct b as [[[[[[b00 b01] b02] b03] [[[b10 b11] b12] b13]]
                  [[[b20 b21] b22] b23]] [[[b30 b31] b32] b33]].
  destruct v as [[[p q] s] t].
  unfold matmul, matrix_product, transpose, dot4; simpl.
  tuple_eq; ring.
Qed.

Lemma matmul_identity (v : carla.Row4 R) : matmul identity_matrix v = v.
Proof.
  destruct v as [[[p q] s] t].
  unfold matmul, identity_matrix, dot4; simpl.
  tuple_eq; ring.
Qed.

(** When [get_inverse_matrix()] is a left inverse of a matrix [T], a
    wheel that the simulator reports at 100 times the image under [T] of
    the point [(px, py, pz)] gets the position [(px, - py, pz)]: the
    descriptor places the wheel in the frame that [T] maps to the world,
    with the second axis mirrored. *)
Theorem wheel_position_in_vehicle_frame (carla_actor : carla.Actor R)
    (T : carla.Matrix4 R) (wheel : carla.WheelPhysicsControl R)
    (px py pz : R) :
  matrix_product (carla.get_inverse_matrix (carla.get_transform carla_actor)) T
  = identity_matrix ->
  (carla.x (carla.position wheel) / 100,
   carla.y (carla.position wheel) / 100,
   carla.z (carla.position wheel) / 100, 1)
  = matmul T (px, py, pz, 1) ->
  carla_msgs.position (wheel_info carla_actor wheel)
  = {| geometry_msgs.Vector3.x := px;
       geometry_msgs.Vector3.y := - py;
       geometry_msgs.Vector3.z := pz |}.
Proof.
  intros Hinverse Hworld.
  unfold wheel_info.
  change (f_lit 1) with 1.
  change (f_lit 100) with 100.
  change (@f_div R Arith_R) with Rdiv.
  rewrite Hworld, matmul_matrix_product, Hinverse, matmul_identity.
  reflexivity.
Qed.

(** The sample vehicle moved by (10, 20, 0) metres: the wheel reported at
    (1150, 1920, 35) centimetres sits at (1.5, -0.8, 0.35) metres in the
    vehicle's frame and gets the position (1.5, 0.8, 0.35). *)
Lemma wheel_position_in_vehicle_frame_sample :
  carla_msgs.position
    (wheel_info (sample_actor_moved (F := R)) (sample_wheel 1150 1920 35))
  = {| geometry_msgs.Vector3.x := 15 / 10;
       geometry_msgs.Vector3.y := - (-8 / 10);
       geometry_msgs.Vector3.z := 35 / 100 |}.
Proof.
  apply (wheel_position_in_vehicle_frame sample_actor_moved
           (translation 10 20 0) (sample_wheel 1150 1920 35)).
  - unfold matrix_product, transpose, translation, identity_matrix, dot4; simpl.
    tuple_eq; lra.
  - unfold matmul, translation, dot4; simpl.
    tuple_eq; lra.
Defined.

End VehicleFrame.

(** ** The relay on binary64 numbers

    What the numeric claims come to when floats are binary64: products
    with the literals 1 and 0 and sums with a zero are exact on finite
    numbers, but for the sign of a zero, which [=?] does not see. *)

Section Binary64.

Local Open Scope float_scope.

(** The product of 1 and a finite number: 52 bits shifted in by the
    multiplication and out again by the rounding. *)
Lemma SFmul_one_l (s : bool) (m : positive) (e : Z) :
  valid_binary (S754_finite s m e) = true ->
  SFmul prec emax (S754_finite false 4503599627370496 (-52)) (S754_finite s m e)
  = S754_finite s m e.
Proof.
  intros Hvalid.
  apply andb_prop in Hvalid; destruct Hvalid as [Hcanonical Hbound].
  apply Z.eqb_eq in Hcanonical.
  unfold SFmul, binary_round_aux.
  change (xorb false s) with s.
  change (4503599627370496 * m)%positive with (Pos.iter xO m 52).
  assert (Hshift :
    shr_fexp prec emax (Z.pos (Pos.iter xO m 52)) (-52 + e) loc_Exact
    = ({| shr_m := Z.pos m; shr_r := false; shr_s := false |}, e)).
  { unfold shr_fexp.
    replace (fexp prec emax (Zdigits2 (Z.pos (Pos.iter xO m 52)) + (-52 + e)))
      with e.
    - replace (e - (-52 + e))%Z with 52%Z by lia.
      unfold shr. apply f_equal2; [ reflexivity | lia ].
    - rewrite <- Hcanonical at 1. f_equal.
      cbn [Zdigits2 Pos.iter digits2_pos]. lia. }
  rewrite Hshift.
  cbn [shr_m loc_of_shr_record shr_r shr_s round_nearest_even].
  unfold shr_fexp. cbn [Zdigits2].
  rewrite Hcanonical, Z.sub_diag.
  cbn [shr shr_record_of_loc shr_m].
  rewrite Hbound. reflexivity.
Qed.

Lemma zero64_finite64 (x : float) : zero64 x = true -> finite64 x = true.
Proof.
  unfold zero64, finite64. destruct (Prim2SF x); congruence.
Qed.

Lemma mul_one_l (x : float) : finite64 x = true -> 1 * x = x.
Proof.
  unfold finite64. intros Hx.
  apply Prim2SF_inj.
  rewrite FloatAxioms.mul_spec.
  change (Prim2SF 1) with (S754_finite false 4503599627370496 (-52)).
  assert (Hvalid := Prim2SF_valid x).
  destruct (Prim2SF x) as [s | s | | s m e]; try discriminate.
  - reflexivity.
  - apply SFmul_one_l. exact Hvalid.
Qed.

Lemma mul_zero_l (x : float) : finite64 x = true -> zero64 (0 * x) = true.
Proof.
  unfold finite64, zero64. intros Hx.
  rewrite FloatAxioms.mul_spec.
  change (Prim2SF 0) with (S754_zero false).
  destruct (Prim2SF x); try discriminate; reflexivity.
Qed.

Lemma add_zero_zero (x y : float) :
  zero64 x = true -> zero64 y = true -> zero64 (x + y) = true.
Proof.
  unfold zero64. intros Hx Hy.
  rewrite FloatAxioms.add_spec.
  destruct (Prim2SF x) as [[|] | | |]; try discriminate;
    destruct (Prim2SF y) as [[|] | | |]; try discriminate; reflexivity.
Qed.

Lemma sub_zero_zero (x y : float) :
  zero64 x = true -> zero64 y = true -> zero64 (x - y) = true.
Proof.
  unfold zero64. intros Hx Hy.
  rewrite FloatAxioms.sub_spec.
  destruct (Prim2SF x) as [[|] | | |]; try discriminate;
    destruct (Prim2SF y) as [[|] | | |]; try discriminate; reflexivity.
Qed.

Lemma add_zero_r (x z : float) :
  finite64 x = true -> zero64 z = true -> same_number (x + z) x.
Proof.
  intros Hx Hz.
  destruct (zero64 x) eqn:Hzero.
  - right. split; [ apply add_zero_zero; assumption | assumption ].
  - left. apply Prim2SF_inj. rewrite FloatAxioms.add_spec.
    unfold finite64, zero64 in *.
    destruct (Prim2SF x); try discriminate.
    destruct (Prim2SF z); try discriminate. reflexivity.
Qed.


Lemma sub_zero_r (x z : float) :
  finite64 x = true -> zero64 z = true -> same_number (x - z) x.
Proof.
  intros Hx Hz.
  destruct (zero64 x) eqn:Hzero.
  - right. split; [ apply sub_zero_zero; assumption | assumption ].
  - left. apply Prim2SF_inj. rewrite FloatAxioms.sub_spec.
    unfold finite64, zero64 in *.
    destruct (Prim2SF x); try discriminate.
    destruct (Prim2SF z); try discriminate. reflexivity.
Qed.



Lemma same_number_eqb (a x : float) :
  same_number a x -> finite64 x = true -> (a =? x) = true.
Proof.
  intros [-> | [Ha Hx']] Hx; rewrite FloatAxioms.eqb_spec; unfold finite64, zero64 in *.
  - destruct (Prim2SF x) as [s | s | | s m e]; try discriminate.
    + reflexivity.
    + unfold SFeqb, SFcompare.
      rewrite Z.compare_refl.
      change (PosDef.Pos.compare_cont Eq m m) with (Pos.compare m m).
      rewrite Pos.compare_refl.
      destruct s; reflexivity.
  - destruct (Prim2SF a); try discriminate.
    destruct (Prim2SF x); try discriminate. reflexivity.
Qed.


(** The conversion in binary64, for any [sin] and [cos] with [sin 0 = 0]
    and [cos 0 = 1]: at roll and pitch zero and a yaw whose half has a
    finite sine and cosine, the four components compare equal to 0, 0,
    that sine and that cosine. *)
Theorem binary64_quaternion_of_yaw_only (T : Trig float) (yaw : float) :
  f_sin 0 = 0 ->
  f_cos 0 = 1 ->
  finite64 (f_sin (yaw / 2)) = true ->
  finite64 (f_cos (yaw / 2)) = true ->
  let '(qx, qy, qz, qw) := get_quaternion_from_euler 0 0 yaw in
  (qx =? 0) = true /\ (qy =? 0) = true
  /\ (qz =? f_sin (yaw / 2)) = true /\ (qw =? f_cos (yaw / 2)) = true.
Proof.
  intros Hsin Hcos Hs Hc.
  unfold get_quaternion_from_euler.
  change (f_lit 2) with 2.
  change (@f_div float Arith_binary64) with PrimFloat.div.
  change (@f_mul float Arith_binary64) with PrimFloat.mul.
  change (@f_add float Arith_binary64) with PrimFloat.add.
  change (@f_sub float Arith_binary64) with PrimFloat.sub.
  change (0 / 2) with 0.
  rewrite Hsin, Hcos.
  change (0 * 1) with 0. change (1 * 0) with 0.
  change (1 * 1) with 1. change (0 * 0) with 0.
  set (s := f_sin (yaw / 2)) in *.
  set (c := f_cos (yaw / 2)) in *.
  assert (Hzs := mul_zero_l s Hs).
  assert (Hzc := mul_zero_l c Hc).
  rewrite (mul_one_l s Hs), (mul_one_l c Hc).
  repeat split.
  - apply same_number_eqb; [ | reflexivity ].
    right. split; [ apply sub_zero_zero; assumption | reflexivity ].
  - apply same_number_eqb; [ | reflexivity ].
    right. split; [ apply add_zero_zero; assumption | reflexivity ].
  - apply same_number_eqb; [ | exact Hs ].
    apply sub_zero_r; assumption.
  - apply same_number_eqb; [ | exact Hc ].
    apply add_zero_r; assumption.
Qed.

(** With [series_trig] and a yaw of one radian. *)
Lemma binary64_quaternion_of_yaw_only_sample :
  let '(qx, qy, qz, qw) :=
    get_quaternion_from_euler (T := series_trig) 0 0 1 in
  (qx =? 0) = true /\ (qy =? 0) = true
  /\ (qz =? 0.5) = true /\ (qw =? 0.875) = true.
Proof.
  exact (binary64_quaternion_of_yaw_only series_trig 1
           eq_refl eq_refl eq_refl eq_refl).
Defined.



(** A rounded result that is given the positive sign is not below zero. *)
Lemma binary_round_aux_not_negative (prec emax mx ex : Z) (lx : location) :
  SFltb (binary_round_aux prec emax false mx ex lx) (S754_zero false) = false.
Proof.
  unfold binary_round_aux.
  destruct (shr_fexp prec emax mx ex lx) as [mrs' e'].
  destruct (shr_fexp prec emax _ e' loc_Exact) as [mrs'' e''].
  destruct (shr_m mrs'') as [| m | m]; [ reflexivity | | reflexivity ].
  destruct (e'' <=? emax - prec)%Z; reflexivity.
Qed.

Lemma sqrt_never_negative (a : float) : (PrimFloat.sqrt a <? 0) = false.
Proof.
  rewrite ltb_spec, sqrt_spec.
  change (Prim2SF 0) with (S754_zero false).
  unfold SF64sqrt, SFsqrt.
  destruct (Prim2SF a) as [s | s | | s m e]; try destruct s; try reflexivity.
  destruct (SFsqrt_core_binary prec emax (Z.pos m) e) as [[mz ez] lz].
  apply binary_round_aux_not_negative.
Qed.

(** The speed in binary64 is never below zero, whatever the velocity
    holds; it is NaN when the sum of the squares is. *)
Theorem binary64_speed_never_negative (carla_actor : carla.Actor float) :
  (get_vehicle_speed_abs carla_actor <? 0) = false.
Proof.
  unfold get_vehicle_speed_abs.
  apply sqrt_never_negative.
Qed.

(** The sample vehicle moves at 5 m/s. *)
Example binary64_speed_sample :
  get_vehicle_speed_abs (sample_actor (F := float)) = 5.
Proof. vm_compute. reflexivity. Qed.

(** Its wheels in the descriptor: the divisions by 100 as binary64
    rounds them, a quarter turn of steering in radians. *)
Example binary64_wheels_sample :
  map (fun w => (carla_msgs.position w, carla_msgs.max_steer_angle w))
    (carla_msgs.wheels (vehicle_info (sample_actor (F := float))))
  = [ ({| geometry_msgs.Vector3.x := 150 / 100;
          geometry_msgs.Vector3.y := - (-80 / 100);
          geometry_msgs.Vector3.z := 35 / 100 |},
       0x1.921fb54442d18p+0);
      ({| geometry_msgs.Vector3.x := -150 / 100;
          geometry_msgs.Vector3.y := - (80 / 100);
          geometry_msgs.Vector3.z := 35 / 100 |},
       0x1.921fb54442d18p+0) ].
Proof. vm_compute. reflexivity. Qed.

(** Two frames and the commands between them: the descriptor goes out
    with the first frame only, and of the two commands the primary one is
    forwarded. *)
Example binary64_run_sample :
  let msg :=
    {| carla_msgs.throttle := 0.5; carla_msgs.steer := 0; carla_msgs.brake := 0;
       carla_msgs.hand_brake := false; carla_msgs.reverse := false;
       carla_msgs.gear := 1%Z; carla_msgs.manual_gear_shift := false |} in
  let out :=
    snd (run (V := sample_base) EgoVehicle_init
           [ frame_tick sample_actor 1 0; vehicle_control_cmd msg;
             vehicle_control_cmd_manual msg; frame_tick sample_actor 2 0 ]) in
  map (@carla_msgs.id float) (published_infos out) = [ 42%Z ]
  /\ List.length (published_statuses out) = 2%nat
  /\ applied_controls out = [ control_of msg ]
  /\ callback_calls out = [ 7%Z ].
Proof. vm_compute. repeat split. Qed.

End Binary64.

(** ** What a run publishes and calls *)

Section Runs.

Context {F : Type} {A : Arith F} {V : Vehicle F}.

Lemma published_statuses_app (es es' : list (Effect F)) :
  published_statuses (es ++ es')
  = published_statuses es ++ published_statuses es'.
Proof.
  induction es as [| e es IH]; [ reflexivity | ].
  destruct e; simpl; rewrite IH; reflexivity.
Qed.

Lemma published_poses_app (es es' : list (Effect F)) :
  published_poses (es ++ es') = published_poses es ++ published_poses es'.
Proof.
  induction es as [| e es IH]; [ reflexivity | ].
  destruct e; simpl; rewrite IH; reflexivity.
Qed.

Lemma autopilot_calls_app (es es' : list (Effect F)) :
  autopilot_calls (es ++ es') = autopilot_calls es ++ autopilot_calls es'.
Proof.
  induction es as [| e es IH]; [ reflexivity | ].
  destruct e; simpl; rewrite IH; reflexivity.
Qed.

Lemma super_updates_app (es es' : list (Effect F)) :
  super_updates (es ++ es') = super_updates es ++ super_updates es'.
Proof.
  induction es as [| e es IH]; [ reflexivity | ].
  destruct e; simpl; rewrite IH; reflexivity.
Qed.

(** The effects of a run, delivery by delivery. *)
Lemma run_effects (ms : list (Inbound F)) : forall self,
  snd (run self ms)
  = match ms with
    | [] => []
    | m :: rest =>
        snd (dispatch self m) ++ snd (run (fst (dispatch self m)) rest)
    end.
Proof.
  destruct ms as [| m rest]; intros self; [ reflexivity | ].
  rewrite run_cons; reflexivity.
Qed.

(** The effects of a delivery that is not a command, whatever the relay's
    state: none of them is a control or a callback. *)
Lemma dispatch_frame_effects (self : EgoVehicle) (carla_actor : carla.Actor F)
    (frame : Z) (timestamp : F) :
  let out := snd (dispatch self (frame_tick carla_actor frame timestamp)) in
  published_statuses out = [ vehicle_status_msg carla_actor timestamp ]
  /\ published_canbus out
     = [ canbus_msg (vehicle_status_msg carla_actor timestamp) timestamp ]
  /\ published_poses out = [ ego_loc_msg carla_actor timestamp ]
  /\ super_updates out = [ (frame, timestamp) ]
  /\ applied_controls out = []
  /\ autopilot_calls out = [].
Proof.
  cbv zeta.
  rewrite dispatch_effects, send_vehicle_msgs_effects.
  destruct (vehicle_info_published self); repeat split; reflexivity.
Qed.

(** Over any run, whatever the two flags hold and whatever is delivered
    in between, each frame tick gives one status message, one
    derived-telemetry message and one pose message, built from that
    tick's vehicle and time stamp, and one call of the base class's
    [update] with the tick's frame and time stamp; nothing else publishes
    on these three publishers. *)
Theorem one_message_of_each_per_frame (self : EgoVehicle)
    (ms : list (Inbound F)) :
  let out := snd (run self ms) in
  published_statuses out
  = map (fun '(carla_actor, _, timestamp) =>
           vehicle_status_msg carla_actor timestamp) (frame_ticks ms)
  /\ published_canbus out
     = map (fun '(carla_actor, _, timestamp) =>
              canbus_msg (vehicle_status_msg carla_actor timestamp) timestamp)
         (frame_ticks ms)
  /\ published_poses out
     = map (fun '(carla_actor, _, timestamp) =>
              ego_loc_msg carla_actor timestamp) (frame_ticks ms)
  /\ super_updates out
     = map (fun '(_, frame, timestamp) => (frame, timestamp)) (frame_ticks ms).
Proof.
  cbv zeta. revert self.
  induction ms as [| m ms IH]; intros self; [ repeat split | ].
  rewrite run_effects.
  rewrite published_statuses_app, published_canbus_app, published_poses_app,
    super_updates_app.
  destruct (IH (fst (dispatch self m))) as (IHs & IHc & IHp & IHu).
  rewrite IHs, IHc, IHp, IHu.
  destruct m as [msg | msg | enable | enable | actor frame timestamp].
  - rewrite dispatch_effects.
    destruct (Bool.eqb false (vehicle_control_override self)); repeat split.
  - rewrite dispatch_effects.
    destruct (Bool.eqb true (vehicle_control_override self)); repeat split.
  - repeat split.
  - repeat split.
  - destruct (dispatch_frame_effects self actor frame timestamp)
      as (Hs & Hc & Hp & Hu & _).
    rewrite Hs, Hc, Hp, Hu.
    repeat split.
Qed.

(** Over any run the simulator's autopilot is set once per autopilot
    message, to the value the message carries and in arrival order,
    whatever the override flag holds: autopilot messages are never
    dropped and nothing else sets the autopilot. *)
Theorem autopilot_follows_every_request (self : EgoVehicle)
    (ms : list (Inbound F)) :
  autopilot_calls (snd (run self ms)) = autopilot_requests ms.
Proof.
  revert self.
  induction ms as [| m ms IH]; intros self; [ reflexivity | ].
  rewrite run_effects, autopilot_calls_app, IH.
  destruct m as [msg | msg | enable | enable | actor frame timestamp].
  - rewrite dispatch_effects.
    destruct (Bool.eqb false (vehicle_control_override self)); reflexivity.
  - rewrite dispatch_effects.
    destruct (Bool.eqb true (vehicle_control_override self)); reflexivity.
  - reflexivity.
  - reflexivity.
  - destruct (dispatch_frame_effects self actor frame timestamp)
      as (_ & _ & _ & _ & _ & Ha).
    rewrite Ha. reflexivity.
Qed.

(** Over any run the controls handed to the simulator are those of the
    commands that arrive on the channel the override flag selects at
    their arrival, in arrival order.  Frame ticks, autopilot messages and
    the published flag have no part in it. *)
Theorem applied_controls_are_the_selected_commands (self : EgoVehicle)
    (ms : list (Inbound F)) :
  applied_controls (snd (run self ms))
  = map (@control_of F)
      (selected_commands (vehicle_control_override self) ms).
Proof.
  revert self.
  induction ms as [| m ms IH]; intros self; [ reflexivity | ].
  rewrite run_effects, applied_controls_app, IH, dispatch_state.
  destruct m as [msg | msg | enable | enable | actor frame timestamp].
  - rewrite dispatch_effects. simpl.
    destruct (vehicle_control_override self); reflexivity.
  - rewrite dispatch_effects. simpl.
    destruct (vehicle_control_override self); reflexivity.
  - reflexivity.
  - reflexivity.
  - destruct (dispatch_frame_effects self actor frame timestamp)
      as (_ & _ & _ & _ & Hc & _).
    rewrite Hc. reflexivity.
Qed.

(** In every state a command is forwarded on exactly one of the two
    channels: sent on both, it reaches the simulator once. *)
Theorem exactly_one_channel_forwards (self : EgoVehicle)
    (msg : carla_msgs.CarlaEgoVehicleControl F) :
  applied_controls (snd (dispatch self (vehicle_control_cmd msg)))
  ++ applied_controls (snd (dispatch self (vehicle_control_cmd_manual msg)))
  = [ control_of msg ]
  /\ (applied_controls (snd (dispatch self (vehicle_control_cmd msg))) = []
      <-> applied_controls
            (snd (dispatch self (vehicle_control_cmd_manual msg)))
          = [ control_of msg ]).
Proof.
  rewrite !dispatch_effects.
  destruct (vehicle_control_override self); simpl; split;
    try reflexivity; split; intros H; (reflexivity || discriminate H).
Qed.

(** A run of control commands and autopilot messages only leaves both
    flags as they were. *)
Theorem commands_leave_the_flags (self : EgoVehicle) (ms : list (Inbound F)) :
  forallb (@is_command F) ms = true -> fst (run self ms) = self.
Proof.
  revert self.
  induction ms as [| m ms IH]; intros self Hms; [ reflexivity | ].
  simpl in Hms. apply andb_prop in Hms. destruct Hms as [Hm Hrest].
  rewrite run_cons. cbn [fst].
  rewrite dispatch_state.
  destruct m; try discriminate Hm; apply IH; exact Hrest.
Qed.

(** When the simulator reports as its current control the one that a
    forwarded command gave it, the status message of the frame echoes the
    command: the seven fields come back as they were sent. *)
Theorem status_echoes_the_forwarded_command (self self' : EgoVehicle)
    (msg : carla_msgs.CarlaEgoVehicleControl F) (manual_override : bool)
    (carla_actor : carla.Actor F) (frame : Z) (timestamp : F) :
  applied_controls (snd (control_command_updated self msg manual_override))
  = [ carla.get_control carla_actor ] ->
  map (@carla_msgs.control F)
    (published_statuses
       (snd (send_vehicle_msgs self' carla_actor frame timestamp)))
  = [ msg ].
Proof.
  rewrite control_command_updated_effects, send_vehicle_msgs_effects.
  intros Happlied.
  destruct (Bool.eqb manual_override (vehicle_control_override self));
    [ | discriminate Happlied ].
  injection Happlied as Hcontrol.
  destruct (vehicle_info_published self'); simpl;
    rewrite <- Hcontrol; destruct msg; reflexivity.
Qed.

(** The derived-telemetry message of a frame reports the simulator's
    current steer, throttle and brake, the speed of the vehicle, and the
    first coordinate of the linear acceleration that the base class
    converts; it carries the header of the status message. *)
Theorem canbus_reports_the_vehicle (self : EgoVehicle)
    (carla_actor : carla.Actor F) (frame : Z) (timestamp : F) :
  let out := snd (send_vehicle_msgs self carla_actor frame timestamp) in
  exists vehicle_status canbus,
    published_statuses out = [ vehicle_status ]
    /\ published_canbus out = [ canbus ]
    /\ localization_msgs.steering canbus
       = carla.steer (carla.get_control carla_actor)
    /\ localization_msgs.throttle canbus
       = carla.throttle (carla.get_control carla_actor)
    /\ localization_msgs.brake canbus
       = carla.brake (carla.get_control carla_actor)
    /\ localization_msgs.speed canbus = get_vehicle_speed_abs carla_actor
    /\ localization_msgs.speed canbus = carla_msgs.velocity vehicle_status
    /\ localization_msgs.accel canbus
       = geometry_msgs.Vector3.x
           (geometry_msgs.linear (get_current_ros_accel carla_actor))
    /\ localization_msgs.header canbus = carla_msgs.header vehicle_status.
Proof.
  cbv zeta.
  rewrite send_vehicle_msgs_effects.
  exists (vehicle_status_msg carla_actor timestamp),
         (canbus_msg (vehicle_status_msg carla_actor timestamp) timestamp).
  destruct (vehicle_info_published self); repeat split.
Qed.

Lemma dict_get_None (d : list (string * string)) (key : string) :
  dict_get d key = None <-> ~ In key (map fst d).
Proof.
  induction d as [| [k v] d IH]; simpl.
  - split; [ intros _ [] | reflexivity ].
  - destruct (String.eqb_spec k key) as [Heq | Hneq].
    + split; [ discriminate | intros H; exfalso; apply H; left; exact Heq ].
    + rewrite IH. split.
      * intros H [Hk | Hin]; [ exact (Hneq Hk) | exact (H Hin) ].
      * intros H Hin. apply H. right. exact Hin.
Qed.

Lemma dict_get_Some (d : list (string * string)) (key value : string) :
  dict_get d key = Some value -> In (key, value) d.
Proof.
  induction d as [| [k v] d IH]; simpl; [ discriminate | ].
  destruct (String.eqb_spec k key) as [Heq | Hneq].
  - intros H. injection H as Hv. left. congruence.
  - intros H. right. exact (IH H).
Qed.

(** The role name of the static descriptor is [None] exactly when the
    vehicle's attributes have no key ["role_name"], and otherwise a value
    bound to that key. *)
Theorem rolename_of_a_vehicle (carla_actor : carla.Actor F) :
  (carla_msgs.rolename (vehicle_info carla_actor) = None
   <-> ~ In "role_name"%string (map fst (carla.attributes carla_actor)))
  /\ forall name,
       carla_msgs.rolename (vehicle_info carla_actor) = Some name ->
       In ("role_name"%string, name) (carla.attributes carla_actor).
Proof.
  split; [ apply dict_get_None | intros name; apply dict_get_Some ].
Qed.

End Runs.

(** On the sample vehicle, whose current control is full throttle in
    first gear. *)
Lemma status_echoes_the_forwarded_command_sample :
  let msg :=
    {| carla_msgs.throttle := 1%float; carla_msgs.steer := 0%float;
       carla_msgs.brake := 0%float; carla_msgs.hand_brake := false;
       carla_msgs.reverse := false; carla_msgs.gear := 1%Z;
       carla_msgs.manual_gear_shift := false |} in
  map (@carla_msgs.control float)
    (published_statuses
       (snd (send_vehicle_msgs (V := sample_base) (unpublished true)
               sample_actor 1 0%float)))
  = [ msg ].
Proof.
  intros msg.
  exact (status_echoes_the_forwarded_command (V := sample_base)
           EgoVehicle_init (unpublished true) msg false sample_actor 1 0%float
           eq_refl).
Defined.

(** Two commands and an autopilot message to a relay in override mode. *)
Lemma commands_leave_the_flags_sample :
  let msg :=
    {| carla_msgs.throttle := 1%float; carla_msgs.steer := 0%float;
       carla_msgs.brake := 0%float; carla_msgs.hand_brake := false;
       carla_msgs.reverse := false; carla_msgs.gear := 1%Z;
       carla_msgs.manual_gear_shift := false |} in
  fst (run (V := sample_base) (unpublished true)
         [ vehicle_control_cmd msg; vehicle_control_cmd_manual msg;
           enable_autopilot {| std_msgs.data := true |} ])
  = unpublished true.
Proof.
  intros msg.
  exact (commands_leave_the_flags (V := sample_base) (unpublished true)
           [ vehicle_control_cmd msg; vehicle_control_cmd_manual msg;
             enable_autopilot {| std_msgs.data := true |} ] eq_refl).
Defined.

(** ** Construction and teardown *)

Section Lifecycle.

Lemma append_inj_l (p a b : string) : (p ++ a = p ++ b)%string -> a = b.
Proof.
  induction p as [| c p IH]; simpl; intros H; [ exact H | ].
  injection H as H. exact (IH H).
Qed.

Lemma prefix_append (p s : string) : String.prefix p (p ++ s) = true.
Proof.
  induction p as [| c p IH]; simpl; [ destruct s; reflexivity | ].
  destruct (Ascii.ascii_dec c c) as [_ | Hneq]; [ exact IH | ].
  exfalso; apply Hneq; reflexivity.
Qed.

(** For every topic prefix the eight topics that [__init__] registers
    are pairwise distinct, and each starts with the prefix. *)
Theorem init_topics_are_distinct (get_topic_prefix : string) :
  NoDup (registered_topics (init_calls get_topic_prefix))
  /\ Forall (fun topic => String.prefix get_topic_prefix topic = true)
       (registered_topics (init_calls get_topic_prefix)).
Proof.
  split.
  - change (registered_topics (init_calls get_topic_prefix))
      with (map (String.append get_topic_prefix)
              [ "/vehicle_status"; "/vehicle_info"; "/vehicle_control_cmd";
                "/vehicle_location"; "/vehicle_control_cmd_manual"; "/canbus";
                "/vehicle_control_manual_override"; "/enable_autopilot" ]%string).
    apply NoDup_map_NoDup_ForallPairs.
    + intros a b _ _ H. exact (append_inj_l _ _ _ H).
    + repeat (constructor; [ simpl; intuition discriminate | ]).
      constructor.
  - simpl. repeat (constructor; [ apply prefix_append | ]). constructor.
Qed.

Context {F : Type} {V : Vehicle F}.

(** [destroy] after [__init__]: every destruction finds an open handle
    of its kind (none is destroyed twice, none was never registered),
    the four subscriptions and the status and descriptor publishers are
    released, and the pose publisher and the derived-telemetry publisher
    stay registered: [destroy] does not hand them back. *)
Theorem destroy_leaves_two_publishers (get_topic_prefix : string) :
  let calls := init_calls get_topic_prefix ++ destroy in
  stray_destructions [] calls = []
  /\ open_handles (init_calls get_topic_prefix)
     = [ (publisher, vehicle_status_publisher);
         (publisher, vehicle_info_publisher);
         (subscription, control_subscriber);
         (publisher, ego_location_publisher);
         (subscription, manual_control_subscriber);
         (publisher, canbus_publisher);
         (subscription, control_override_subscriber);
         (subscription, enable_autopilot_subscriber) ]
  /\ open_handles calls
     = [ (publisher, ego_location_publisher); (publisher, canbus_publisher) ].
Proof.
  cbv zeta. repeat split.
Qed.

End Lifecycle.

(** ** The quaternion of three angles, over the reals *)

Section Quaternions.

Local Open Scope R_scope.

(** For all angles the quaternion has norm one. *)
Theorem quaternion_has_unit_norm (roll pitch yaw : R) :
  let '(qx, qy, qz, qw) := get_quaternion_from_euler roll pitch yaw in
  qx * qx + qy * qy + qz * qz + qw * qw = 1.
Proof.
  unfold get_quaternion_from_euler; simpl.
  assert (Hr := sin2_cos2 (roll / 2)).
  assert (Hp := sin2_cos2 (pitch / 2)).
  assert (Hy := sin2_cos2 (yaw / 2)).
  unfold Rsqr in Hr, Hp, Hy.
  set (sr := sin (roll / 2)) in *. set (cr := cos (roll / 2)) in *.
  set (sp := sin (pitch / 2)) in *. set (cp := cos (pitch / 2)) in *.
  set (sy := sin (yaw / 2)) in *. set (cy := cos (yaw / 2)) in *.
  replace 1 with ((sr * sr + cr * cr) * (sp * sp + cp * cp) * (sy * sy + cy * cy))
    by (rewrite Hr, Hp, Hy; ring).
  ring.
Qed.

(** The quaternion of three angles is the product of the quaternions of
    the yaw alone, the pitch alone and the roll alone, in this order: the
    roll applies first, then the pitch, then the yaw. *)
Theorem quaternion_is_yaw_pitch_roll (roll pitch yaw : R) :
  get_quaternion_from_euler roll pitch yaw
  = quaternion_product (get_quaternion_from_euler 0 0 yaw)
      (quaternion_product (get_quaternion_from_euler 0 pitch 0)
         (get_quaternion_from_euler roll 0 0)).
Proof.
  unfold get_quaternion_from_euler, quaternion_product; simpl.
  replace (0 / 2) with 0 by lra.
  rewrite sin_0, cos_0.
  tuple_eq; ring.
Qed.

(** A full turn added to the yaw negates the four components (the same
    rotation), and two full turns give the same quaternion. *)
Theorem quaternion_of_a_full_turn (roll pitch yaw : R) :
  let '(qx, qy, qz, qw) := get_quaternion_from_euler roll pitch yaw in
  get_quaternion_from_euler roll pitch (yaw + 2 * PI) = (- qx, - qy, - qz, - qw)
  /\ get_quaternion_from_euler roll pitch (yaw + 4 * PI) = (qx, qy, qz, qw).
Proof.
  unfold get_quaternion_from_euler; simpl.
  replace ((yaw + 2 * PI) / 2) with (yaw / 2 + PI) by lra.
  replace ((yaw + 4 * PI) / 2) with (yaw / 2 + PI + PI) by lra.
  rewrite !neg_sin, !neg_cos.
  split; tuple_eq; ring.
Qed.

End Quaternions.

(** ** The speed, over the reals *)

Section Speed.

Local Open Scope R_scope.

Lemma get_vector_length_squared_nonneg (v : carla.Vector3D R) :
  0 <= get_vector_length_squared v.
Proof.
  unfold get_vector_length_squared; simpl. nra.
Qed.

(** The square of the speed is the squared speed, and the vehicle has
    speed zero exactly when the three coordinates of its velocity are
    zero. *)
Theorem speed_is_zero_only_at_rest (carla_actor : carla.Actor R) :
  let v := carla.get_velocity carla_actor in
  get_vehicle_speed_abs carla_actor * get_vehicle_speed_abs carla_actor
  = get_vehicle_speed_squared carla_actor
  /\ (get_vehicle_speed_abs carla_actor = 0
      <-> carla.x v = 0 /\ carla.y v = 0 /\ carla.z v = 0).
Proof.
  cbv zeta.
  unfold get_vehicle_speed_abs, get_vehicle_speed_squared; simpl.
  assert (Hpos := get_vector_length_squared_nonneg (carla.get_velocity carla_actor)).
  split; [ apply sqrt_sqrt; exact Hpos | ].
  unfold get_vector_length_squared in *; simpl in *.
  split.
  - intros Hzero. apply sqrt_eq_0 in Hzero; [ | exact Hpos ].
    repeat split; nra.
  - intros (Hx & Hy & Hz). rewrite Hx, Hy, Hz.
    replace (0 * 0 + 0 * 0 + 0 * 0) with 0 by ring.
    apply sqrt_0.
Qed.

(** No coordinate of the velocity exceeds the speed in absolute value. *)
Theorem speed_bounds_each_coordinate (carla_actor : carla.Actor R) :
  let v := carla.get_velocity carla_actor in
  Rabs (carla.x v) <= get_vehicle_speed_abs carla_actor
  /\ Rabs (carla.y v) <= get_vehicle_speed_abs carla_actor
  /\ Rabs (carla.z v) <= get_vehicle_speed_abs carla_actor.
Proof.
  cbv zeta.
  unfold get_vehicle_speed_abs, get_vehicle_speed_squared,
    get_vector_length_squared; simpl.
  set (x := carla.x (carla.get_velocity carla_actor)).
  set (y := carla.y (carla.get_velocity carla_actor)).
  set (z := carla.z (carla.get_velocity carla_actor)).
  repeat split.
  - rewrite <- (sqrt_Rsqr_abs x). apply sqrt_le_1_alt. unfold Rsqr. nra.
  - rewrite <- (sqrt_Rsqr_abs y). apply sqrt_le_1_alt. unfold Rsqr. nra.
  - rewrite <- (sqrt_Rsqr_abs z). apply sqrt_le_1_alt. unfold Rsqr. nra.
Qed.

(** Scaling the velocity by [k] scales the speed by the absolute value
    of [k]; in particular the reversed velocity has the same speed. *)
Theorem speed_scales_with_the_velocity (k : R) (carla_actor : carla.Actor R) :
  get_vehicle_speed_abs (with_velocity_scaled k carla_actor)
  = Rabs k * get_vehicle_speed_abs carla_actor.
Proof.
  unfold get_vehicle_speed_abs, get_vehicle_speed_squared,
    get_vector_length_squared; simpl.
  set (x := carla.x (carla.get_velocity carla_actor)).
  set (y := carla.y (carla.get_velocity carla_actor)).
  set (z := carla.z (carla.get_velocity carla_actor)).
  replace (k * x * (k * x) + k * y * (k * y) + k * z * (k * z))
    with (Rsqr k * (x * x + y * y + z * z)) by (unfold Rsqr; ring).
  rewrite sqrt_mult_alt by apply Rle_0_sqr.
  rewrite sqrt_Rsqr_abs. reflexivity.
Qed.

End Speed.

(** ** The squared speed on binary64 numbers *)

Section Binary64Squares.

Local Open Scope float_scope.

Lemma not_negative_ltb (x : float) :
  not_negative (Prim2SF x) = true -> (x <? 0) = false.
Proof.
  rewrite ltb_spec.
  change (Prim2SF 0) with (S754_zero false).
  destruct (Prim2SF x) as [s | [|] | | [|] m e]; simpl;
    intros H; (discriminate H || reflexivity).
Qed.

Lemma binary_round_aux_sign (prec emax mx ex : Z) (lx : location) :
  not_negative (binary_round_aux prec emax false mx ex lx) = true.
Proof.
  unfold binary_round_aux.
  destruct (shr_fexp prec emax mx ex lx) as [mrs' e'].
  destruct (shr_fexp prec emax _ e' loc_Exact) as [mrs'' e''].
  destruct (shr_m mrs'') as [| m | m]; [ reflexivity | | reflexivity ].
  destruct (e'' <=? emax - prec)%Z; reflexivity.
Qed.

Lemma not_negative_square (x : float) : not_negative (Prim2SF (x * x)) = true.
Proof.
  rewrite FloatAxioms.mul_spec. unfold SF64mul, SFmul.
  destruct (Prim2SF x) as [s | s | | s m e];
    try reflexivity; try (destruct s; reflexivity).
  rewrite xorb_nilpotent.
  apply binary_round_aux_sign.
Qed.

Lemma not_negative_add (x y : float) :
  not_negative (Prim2SF x) = true -> not_negative (Prim2SF y) = true ->
  not_negative (Prim2SF (x + y)) = true.
Proof.
  rewrite FloatAxioms.add_spec. unfold SF64add, SFadd.
  destruct (Prim2SF x) as [sx | [|] | | [|] mx ex]; simpl; intros Hx;
    try discriminate Hx;
    destruct (Prim2SF y) as [sy | [|] | | [|] my ey]; simpl; intros Hy;
    try discriminate Hy; try reflexivity.
  - destruct sx, sy; reflexivity.
  - unfold binary_normalize, binary_round.
    destruct (shl_align _ _ _) as [mz ez].
    apply binary_round_aux_sign.
Qed.

(** The sum of the three squares in binary64 is never below zero,
    whatever the vector holds. *)
Theorem binary64_length_squared_never_negative (v : carla.Vector3D float) :
  (get_vector_length_squared v <? 0) = false.
Proof.
  apply not_negative_ltb.
  unfold get_vector_length_squared.
  repeat apply not_negative_add; apply not_negative_square.
Qed.

End Binary64Squares.
